(** * Economist podcast processor: a shallow embedding of
      [src/economist_complete.py] and the properties of its stages.

    Conventions of the model.
    - A Python [str] is a Rocq [string]; the character classes and the case
      mapping are those of ASCII text.
    - Chapter offsets are integers of milliseconds in the tags; the seconds
      computed from them ([x / 1000], a difference of two such values) are
      exact rationals ([Q]), so the rounding of binary floating point is
      outside the model.
    - An exception is [None] in an [option], or an explicit outcome; the
      [try] of [split_economist_file] and of the archive loop catch it as
      the source does.
    - The directory tree is explicit state: a function takes the tree and
      returns the new one. The base folder holds regular files and
      directories, a directory holds regular files.
    - The extractor run by [subprocess.run] and the clock read by
      [datetime.now()] are arguments of the functions that use them.
    - [list.sort] is the stable ascending sort; [strptime] and [strftime] are
      those of the C locale, a year being printed with four digits.
    - Printing to the console and the push to the remote repository do not
      touch the tree and are left out. *)

From Stdlib Require Import Ascii QArith Qminmax Lqa.
From stdpp Require Import gmap strings list fin_maps sorting pretty.

Local Open Scope string_scope.
Local Open Scope Z_scope.

(** ** Python string primitives used by the program *)

Module PyStr.

Definition code (c : ascii) : nat := nat_of_ascii c.

Definition is_digit (c : ascii) : bool :=
  (48 <=? code c)%nat && (code c <=? 57)%nat.
Definition is_upper (c : ascii) : bool :=
  (65 <=? code c)%nat && (code c <=? 90)%nat.
Definition is_lower (c : ascii) : bool :=
  (97 <=? code c)%nat && (code c <=? 122)%nat.

(** [c.isalnum()] *)
Definition isalnum (c : ascii) : bool :=
  is_digit c || is_upper c || is_lower c.

(** whitespace as [str.strip()] sees it *)
Definition isspace (c : ascii) : bool :=
  (code c =? 32)%nat || ((9 <=? code c)%nat && (code c <=? 13)%nat)
  || ((28 <=? code c)%nat && (code c <=? 31)%nat).

Definition lower_char (c : ascii) : ascii :=
  if is_upper c then ascii_of_nat (code c + 32) else c.

(** [s.lower()] *)
Fixpoint lower (s : string) : string :=
  match s with
  | EmptyString => EmptyString
  | String c s' => String (lower_char c) (lower s')
  end.

(** [''.join(c for c in s if p(c))] *)
Fixpoint filter_chars (p : ascii -> bool) (s : string) : string :=
  match s with
  | EmptyString => EmptyString
  | String c s' => if p c then String c (filter_chars p s') else filter_chars p s'
  end.

(** [s.lstrip()] *)
Fixpoint lstrip (s : string) : string :=
  match s with
  | EmptyString => EmptyString
  | String c s' => if isspace c then lstrip s' else s
  end.

(** [s.rstrip()] *)
Fixpoint rstrip (s : string) : string :=
  match s with
  | EmptyString => EmptyString
  | String c s' =>
      match rstrip s' with
      | EmptyString => if isspace c then EmptyString else String c EmptyString
      | r => String c r
      end
  end.

(** [s.strip()] *)
Definition strip (s : string) : string := rstrip (lstrip s).

(** [s[:n]] *)
Fixpoint take (n : nat) (s : string) : string :=
  match n, s with
  | O, _ => EmptyString
  | _, EmptyString => EmptyString
  | S n', String c s' => String c (take n' s')
  end.

(** [s[n:]] *)
Fixpoint drop (n : nat) (s : string) : string :=
  match n, s with
  | O, _ => s
  | _, EmptyString => EmptyString
  | S n', String _ s' => drop n' s'
  end.

(** [hay.startswith(p)] *)
Definition startswith (p hay : string) : bool := String.prefix p hay.

(** [needle in hay] *)
Fixpoint contains (needle hay : string) : bool :=
  String.prefix needle hay ||
  match hay with
  | EmptyString => false
  | String _ hay' => contains needle hay'
  end.

(** [hay.endswith(p)] *)
Fixpoint endswith (p hay : string) : bool :=
  String.eqb p hay ||
  match hay with
  | EmptyString => false
  | String _ hay' => endswith p hay'
  end.

(** every character of [s] satisfies [p] *)
Fixpoint all_chars (p : ascii -> bool) (s : string) : bool :=
  match s with
  | EmptyString => true
  | String c s' => p c && all_chars p s'
  end.

(** [str(n)] for a natural number *)
Definition str_nat (n : nat) : string := pretty n.

(** [f"{n:02d}"] *)
Definition fmt_02d (n : nat) : string :=
  if (n <? 10)%nat then "0" +:+ str_nat n else str_nat n.

(** [s.replace(old, new)] for a non-empty [old]: the occurrences are
    found from the left and do not overlap; [skip] counts the characters
    of the occurrence being replaced that are still to be passed *)
Fixpoint replace_go (old new : string) (skip : nat) (s : string) : string :=
  match s with
  | EmptyString => EmptyString
  | String c s' =>
      match skip with
      | S k => replace_go old new k s'
      | O =>
          if String.prefix old s
          then new +:+ replace_go old new (String.length old - 1) s'
          else String c (replace_go old new 0 s')
      end
  end.

Definition replace (old new s : string) : string := replace_go old new 0 s.

(** the text after the first occurrence of [sep], when there is one *)
Fixpoint after_first (sep s : string) : option string :=
  if String.prefix sep s then Some (drop (String.length sep) s)
  else match s with
       | EmptyString => None
       | String _ s' => after_first sep s'
       end.

(** [s.split(sep, 1)[-1]] for a non-empty [sep] *)
Definition split1_last (sep s : string) : string :=
  default s (after_first sep s).

(** [str(n)] for a size *)
Definition str_N (n : N) : string := pretty n.

End PyStr.

(** ** Chapter descriptors and their extraction (lines 125-144) *)

(** a sub-frame of a chapter frame: [hasattr(frame, 'text')] holds for
    [TextFrame], whose [text] is a sequence of strings *)
Inductive sub_frame :=
  | TextFrame (text : list string)
  | PlainFrame.

(** a CHAP frame: offsets in milliseconds; [sub_frames] is [None] when the
    object has no such attribute *)
Record chap_frame := ChapFrame {
  chap_start_time : Z;
  chap_end_time : Z;
  chap_sub_frames : option (list sub_frame)
}.

Inductive frame :=
  | Chap (c : chap_frame)
  | OtherFrame.

(** the tag dictionary, in the order in which the frames are stored *)
Definition id3_tags := list (string * frame).

Record chapter := Chapter {
  start_time : Q;
  duration : Q;
  title : string
}.

(** the characters that sanitization keeps *)
Definition title_char (c : ascii) : bool :=
  PyStr.isalnum c || Ascii.eqb c " " || Ascii.eqb c "-" || Ascii.eqb c "_".

(** line 137 *)
Definition sanitize (t : string) : string :=
  PyStr.take 50 (PyStr.strip (PyStr.filter_chars title_char t)).

(** the [text] of the first sub-frame that has one *)
Fixpoint first_text (fs : list sub_frame) : option (list string) :=
  match fs with
  | [] => None
  | TextFrame t :: _ => Some t
  | PlainFrame :: fs' => first_text fs'
  end.

Definition chap_text (c : chap_frame) : option (list string) :=
  match chap_sub_frames c with
  | None => None
  | Some fs => first_text fs
  end.

(** lines 132-138; [n] is [len(chapter_info)]; [None] is the [IndexError] of
    [frame.text[0]] on an empty sequence *)
Definition resolve_title (n : nat) (c : chap_frame) : option string :=
  match chap_text c with
  | None => Some ("Chapter_" +:+ PyStr.str_nat (n + 1))
  | Some [] => None
  | Some (t :: _) => Some (sanitize t)
  end.

(** [tags[key]] *)
Fixpoint tags_get (key : string) (tags : id3_tags) : option frame :=
  match tags with
  | [] => None
  | (k, f) :: tags' => if String.eqb k key then Some f else tags_get key tags'
  end.

(** line 114 *)
Definition chapter_keys (tags : id3_tags) : list string :=
  List.filter (PyStr.startswith "CHAP") (map fst tags).

(** one iteration of the loop of lines 126-144 *)
Definition chapter_of (n : nat) (c : chap_frame) : option chapter :=
  let start_time := Qmake (chap_start_time c) 1000 in
  let end_time := Qmake (chap_end_time c) 1000 in
  let duration := (end_time - start_time)%Q in
  match resolve_title n c with
  | Some t => Some (Chapter start_time duration t)
  | None => None
  end.

(** lines 125-144, [chapter_info] being the accumulator *)
Fixpoint chapter_loop (tags : id3_tags) (chapters : list string)
    (chapter_info : list chapter) : option (list chapter) :=
  match chapters with
  | [] => Some chapter_info
  | chap_id :: rest =>
      match tags_get chap_id tags with
      | Some (Chap c) =>
          match chapter_of (length chapter_info) c with
          | Some ch => chapter_loop tags rest (chapter_info ++ [ch])
          | None => None
          end
      | _ => None
      end
  end.

(** ** Sequencing (lines 147-175) *)

Definition Qltb (x y : Q) : bool := negb (Qle_bool y x).

(** lines 147-173 *)
Definition get_sort_priority (chapter : chapter) : Z * Q :=
  let title_lower := PyStr.lower (title chapter) in
  let duration := duration chapter in
  if PyStr.contains "world this week" title_lower then (1, 0%Q)
  else if PyStr.contains "letter" title_lower then (2, 0%Q)
  else if PyStr.contains "business" title_lower then (3, duration)
  else if PyStr.contains "finance" title_lower
          || PyStr.contains "economic" title_lower then (4, duration)
  else if PyStr.contains "briefing" title_lower then (6, 999999%Q)
  else (5, duration).

(** [a < b] on the key tuples, as Python compares tuples: the first
    components decide unless they are equal *)
Definition key_lt (a b : Z * Q) : bool :=
  if (a.1 =? b.1) then Qltb a.2 b.2 else (a.1 <? b.1).

(** the keys are identical as numbers *)
Definition key_eqb (a b : Z * Q) : bool :=
  (a.1 =? b.1) && Qeq_bool a.2 b.2.

(** [l.sort(key=key)]: the stable ascending sort, which compares keys with
    [<] only. Each element is placed before the first element that is not
    smaller than it. *)
Section stable_sort.
Context {A : Type} (key : A -> Z * Q).

Fixpoint sort_insert (x : A) (l : list A) : list A :=
  match l with
  | [] => [x]
  | y :: l' =>
      if key_lt (key y) (key x) then y :: sort_insert x l'
      else x :: y :: l'
  end.

Fixpoint list_sort (l : list A) : list A :=
  match l with
  | [] => []
  | x :: l' => sort_insert x (list_sort l')
  end.
End stable_sort.

(** [x] does not come after [y] in ascending order of the keys *)
Definition key_ordered {A : Type} (key : A -> Z * Q) (x y : A) : Prop :=
  key_lt (key y) (key x) = false.

(** line 175 *)
Definition sequence (chapter_info : list chapter) : list chapter :=
  list_sort get_sort_priority chapter_info.

(** ** Dates and clock readings *)

(** a reading of [datetime.now()] *)
Record datetime := DateTime {
  year : nat; month : nat; day : nat;
  hour : nat; minute : nat; second : nat
}.

Module PyDate.

Definition fmt_04d (n : nat) : string :=
  if (n <? 10)%nat then "000" +:+ PyStr.str_nat n
  else if (n <? 100)%nat then "00" +:+ PyStr.str_nat n
  else if (n <? 1000)%nat then "0" +:+ PyStr.str_nat n
  else PyStr.str_nat n.

(** [strftime("%Y-%m-%d")] *)
Definition strftime_ymd (t : datetime) : string :=
  fmt_04d (year t) +:+ "-" +:+ PyStr.fmt_02d (month t) +:+ "-"
    +:+ PyStr.fmt_02d (day t).

(** [strftime('%Y-%m-%d %H:%M:%S')] *)
Definition strftime_stamp (t : datetime) : string :=
  strftime_ymd t +:+ " " +:+ PyStr.fmt_02d (hour t) +:+ ":"
    +:+ PyStr.fmt_02d (minute t) +:+ ":" +:+ PyStr.fmt_02d (second t).

Definition is_leap (y : nat) : bool :=
  (y mod 4 =? 0)%nat && (negb (y mod 100 =? 0)%nat || (y mod 400 =? 0)%nat).

Definition days_in_month (y m : nat) : nat :=
  match m with
  | 1 => 31 | 2 => if is_leap y then 29 else 28 | 3 => 31 | 4 => 30
  | 5 => 31 | 6 => 30 | 7 => 31 | 8 => 31 | 9 => 30 | 10 => 31
  | 11 => 30 | 12 => 31 | _ => 0
  end%nat.

Fixpoint days_before_month (y m : nat) : nat :=
  match m with
  | O => 0
  | S m' => match m' with
            | O => 0
            | _ => days_before_month y m' + days_in_month y m'
            end
  end%nat.

Definition days_before_year (y : nat) : nat :=
  let p := (y - 1)%nat in
  (p * 365 + p / 4 - p / 100 + p / 400)%nat.

(** [date(y, m, d).toordinal()] *)
Definition toordinal (y m d : nat) : nat :=
  (days_before_year y + days_before_month y m + d)%nat.

(** [date(y, m, d).weekday()]: Monday is 0 *)
Definition weekday (y m d : nat) : nat := ((toordinal y m d + 6) mod 7)%nat.

(** [%a] *)
Definition day_abbr (w : nat) : string :=
  match w with
  | 0 => "Mon" | 1 => "Tue" | 2 => "Wed" | 3 => "Thu" | 4 => "Fri"
  | 5 => "Sat" | _ => "Sun"
  end%nat.

(** [%b] *)
Definition month_abbr (m : nat) : string :=
  match m with
  | 1 => "Jan" | 2 => "Feb" | 3 => "Mar" | 4 => "Apr" | 5 => "May"
  | 6 => "Jun" | 7 => "Jul" | 8 => "Aug" | 9 => "Sep" | 10 => "Oct"
  | 11 => "Nov" | _ => "Dec"
  end%nat.

(** [%a, %d %b %Y] *)
Definition strftime_day (y m d : nat) : string :=
  day_abbr (weekday y m d) +:+ ", " +:+ PyStr.fmt_02d d +:+ " "
    +:+ month_abbr m +:+ " " +:+ fmt_04d y.

(** [strftime('%a, %d %b %Y 12:00:00 GMT')] *)
Definition strftime_noon (y m d : nat) : string :=
  strftime_day y m d +:+ " 12:00:00 GMT".

(** [strftime('%a, %d %b %Y %H:%M:%S GMT')] *)
Definition strftime_rfc (t : datetime) : string :=
  strftime_day (year t) (month t) (day t) +:+ " "
    +:+ PyStr.fmt_02d (hour t) +:+ ":" +:+ PyStr.fmt_02d (minute t) +:+ ":"
    +:+ PyStr.fmt_02d (second t) +:+ " GMT".

Definition digit (c : ascii) : option nat :=
  if PyStr.is_digit c then Some (PyStr.code c - 48)%nat else None.

(** [%Y]: exactly four digits *)
Definition parse_year (s : string) : option (nat * string) :=
  match s with
  | String a (String b (String c (String d r))) =>
      match digit a, digit b, digit c, digit d with
      | Some a, Some b, Some c, Some d =>
          Some (a * 1000 + b * 100 + c * 10 + d, r)%nat
      | _, _, _, _ => None
      end
  | _ => None
  end.

(** a literal character of the format *)
Definition parse_lit (l : ascii) (s : string) : option string :=
  match s with
  | String c r => if Ascii.eqb c l then Some r else None
  | EmptyString => None
  end.

(** a single digit from 1 to 9 *)
Definition digit19 (c : ascii) : option nat :=
  match digit c with
  | Some O => None
  | o => o
  end.

(** [%m]: [1[0-2]|0[1-9]|[1-9]], the alternatives tried in this order *)
Definition parse_month (s : string) : option (nat * string) :=
  match s with
  | EmptyString => None
  | String a r =>
      match digit a with
      | Some 1%nat =>
          match r with
          | String b r' =>
              match digit b with
              | Some 0%nat => Some (10, r')
              | Some 1%nat => Some (11, r')
              | Some 2%nat => Some (12, r')
              | _ => Some (1, r)
              end
          | EmptyString => Some (1, r)
          end
      | Some 0%nat =>
          match r with
          | String b r' =>
              match digit19 b with
              | Some v => Some (v, r')
              | None => None
              end
          | EmptyString => None
          end
      | Some v => Some (v, r)
      | None => None
      end
  end%nat.

(** [%d]: [3[0-1]|[1-2]\d|0[1-9]|[1-9]| [1-9]] *)
Definition parse_day (s : string) : option (nat * string) :=
  match s with
  | EmptyString => None
  | String a r =>
      if Ascii.eqb a " " then
        match r with
        | String b r' =>
            match digit19 b with
            | Some v => Some (v, r')
            | None => None
            end
        | EmptyString => None
        end
      else
      match digit a with
      | Some 3%nat =>
          match r with
          | String b r' =>
              match digit b with
              | Some 0%nat => Some (30, r')
              | Some 1%nat => Some (31, r')
              | _ => Some (3, r)
              end
          | EmptyString => Some (3, r)
          end
      | Some 0%nat =>
          match r with
          | String b r' =>
              match digit19 b with
              | Some v => Some (v, r')
              | None => None
              end
          | EmptyString => None
          end
      | Some 1%nat | Some 2%nat =>
          match r with
          | String b r' =>
              match digit b with
              | Some v => Some (default 0 (digit a) * 10 + v, r')
              | None => Some (default 0 (digit a), r)
              end
          | EmptyString => Some (default 0 (digit a), r)
          end
      | Some v => Some (v, r)
      | None => None
      end
  end%nat.

(** [datetime.strptime(s, "%Y-%m-%d")]: the whole string must be consumed
    and the triple must be a date of the calendar (year at least 1);
    [None] is the [ValueError] *)
Definition strptime_ymd (s : string) : option (nat * nat * nat) :=
  match parse_year s with
  | None => None
  | Some (y, s1) =>
      match parse_lit "-" s1 with
      | None => None
      | Some s2 =>
          match parse_month s2 with
          | None => None
          | Some (m, s3) =>
              match parse_lit "-" s3 with
              | None => None
              | Some s4 =>
                  match parse_day s4 with
                  | Some (d, EmptyString) =>
                      if (1 <=? y)%nat && (d <=? days_in_month y m)%nat
                      then Some (y, m, d) else None
                  | _ => None
                  end
              end
          end
      end
  end.


End PyDate.

(** ** The directory tree

    [live] holds the entries of the base folder other than the archive
    folder, [feed.xml] and [.gitignore]: none of these three is ever selected
    by a listing of the program (the first is a directory whose name does not
    start with [Economist_], the others are regular files whose names do not
    end in [.mp3]). [archive] holds the entries of the archive folder. A
    directory holds regular files. *)

Inductive file :=
  | Audio (size : N) (id3 : option id3_tags)
  | Text (lines : list string).

Inductive node :=
  | File (f : file)
  | Dir (d : gmap string file).

Record tree := Tree {
  live : gmap string node;
  archive : gmap string node
}.

(** [os.path.getsize]; a text file holds its lines, each ended by a newline *)
Definition getsize (f : file) : N :=
  match f with
  | Audio n _ => n
  | Text ls => N.of_nat (foldr (fun l n => String.length l + 1 + n)%nat 0%nat ls)
  end.

(** [ID3(path)]: [None] when the file carries no tags *)
Definition ID3 (f : file) : option id3_tags :=
  match f with
  | Audio _ (Some tags) => Some tags
  | _ => None
  end.

Definition temp_name : string := "original.mp3".
Definition summary_name : string := "00 - Chapter List.txt".

(** line 95 *)
Definition folder_name (date_str : string) : string := "Economist_" +:+ date_str.

(** line 224 *)
Definition archive_original_name (date_str : string) : string :=
  "original_" +:+ date_str +:+ ".mp3".

(** line 196 *)
Definition output_name (i : nat) (ch : chapter) : string :=
  PyStr.fmt_02d i +:+ " - " +:+ title ch +:+ ".mp3".

(** lines 217-221 *)
Definition summary_lines (stamp : string) (chapter_files : list string)
    : list string :=
  [ "The Economist Weekly Edition";
    "Processed: " +:+ stamp;
    "============================================================";
    "" ] ++ chapter_files.

(** the directory in which a call of the splitter works: the episode
    directory as it is, or a new empty one *)
Definition start_dir (t : tree) (output_folder : string) : gmap string file :=
  match live t !! output_folder with
  | Some (Dir d) => d
  | _ => ∅
  end.

(** the numbering that the specification describes: the kept chapters
    numbered 1, 2, ... in sequence order, a skipped chapter taking no
    number *)
Definition contiguous_names (chapter_info : list chapter) : list string :=
  imap (fun k ch => output_name (S k) ch)
    (List.filter (fun ch => negb (Qltb (duration ch) 60)) chapter_info).

(** how a call of [split_economist_file] ended *)
Inductive outcome :=
  | Raised
  | NoChapters
  | Done (chapter_files : list string) (deleted_count : nat).

Section splitter.

(** the external extractor: from the source audio, the start offset, the
    duration and the name of the destination, the file it writes there, or
    [None] when it writes none *)
Variable ffmpeg : file -> Q -> Q -> string -> option file.

(** lines 198-207 *)
Definition run_ffmpeg (src : file) (ch : chapter) (output_file : string)
    (d : gmap string file) : gmap string file :=
  match ffmpeg src (start_time ch) (duration ch) output_file with
  | Some f => <[output_file := f]> d
  | None => d
  end.

(** lines 189-212: [i] is the position given by [enumerate] *)
Fixpoint split_loop (src : file) (i : nat) (chapter_info : list chapter)
    (d : gmap string file) (chapter_files : list string) (deleted_count : nat)
    : gmap string file * list string * nat :=
  match chapter_info with
  | [] => (d, chapter_files, deleted_count)
  | ch :: rest =>
      if Qltb (duration ch) 60 then
        split_loop src (S i) rest d chapter_files (S deleted_count)
      else
        let output_file := output_name i ch in
        let d' := run_ffmpeg src ch output_file d in
        match d' !! output_file with
        | Some _ =>
            split_loop src (S i) rest d' (chapter_files ++ [output_file])
              deleted_count
        | None => split_loop src (S i) rest d' chapter_files deleted_count
        end
  end.

(** [enumerate(l, i)] *)
Fixpoint enumerate {A} (i : nat) (l : list A) : list (nat * A) :=
  match l with
  | [] => []
  | x :: l' => (i, x) :: enumerate (S i) l'
  end.

(** the test of line 191, negated *)
Definition kept (ch : chapter) : bool := negb (Qltb (duration ch) 60).

(** the test of line 209 for the chapter at position [i], seen from the
    directory [d] in which the loop starts: the extractor writes the file,
    or a file of that name is there already *)
Definition produced (src : file) (d : gmap string file)
    (e : nat * chapter) : bool :=
  match ffmpeg src (start_time e.2) (duration e.2) (output_name e.1 e.2) with
  | Some _ => true
  | None => match d !! output_name e.1 e.2 with Some _ => true | None => false end
  end.

(** lines 223-225: [shutil.move] into the archive folder. A directory
    already there under the target name receives the file under its own
    name, unless it holds that name already, which raises. *)
Definition move_to_archive (f : file) (target : string)
    (a : gmap string node) : option (gmap string node) :=
  match a !! target with
  | Some (Dir ad) =>
      match ad !! temp_name with
      | Some _ => None
      | None => Some (<[target := Dir (<[temp_name := f]> ad)]> a)
      end
  | _ => Some (<[target := File f]> a)
  end.

(** lines 90-237. [now] is the clock reading of line 94 and [now'] that of
    line 218. The function is called on regular files of the base folder:
    on any other name the model raises once the episode directory is
    made. *)
Definition split_economist_file (now now' : datetime) (t : tree)
    (input_file : string) : tree * outcome :=
  let date_str := PyDate.strftime_ymd now in
  let output_folder := folder_name date_str in
  match live t !! output_folder with
  | Some (File _) => (t, Raised)
  | made =>
      let d0 := match made with Some (Dir d) => d | _ => ∅ end in
      let live0 := <[output_folder := Dir d0]> (live t) in
      match live0 !! input_file with
      | Some (File f) =>
          let d1 := <[temp_name := f]> d0 in
          let live1 := delete input_file live0 in
          let put d := Tree (<[output_folder := Dir d]> live1) (archive t) in
          match ID3 f with
          | None => (put d1, Raised)
          | Some tags =>
              match chapter_keys tags with
              | [] => (put (<[input_file := f]> (delete temp_name d1)), NoChapters)
              | chapters =>
                  match chapter_loop tags chapters [] with
                  | None => (put d1, Raised)
                  | Some chapter_info =>
                      let '(d2, chapter_files, deleted_count) :=
                        split_loop f 1 (sequence chapter_info) d1 [] 0 in
                      let d3 :=
                        <[summary_name :=
                            Text (summary_lines (PyDate.strftime_stamp now')
                                    chapter_files)]> d2 in
                      match move_to_archive f (archive_original_name date_str)
                              (archive t) with
                      | None => (put d3, Raised)
                      | Some a =>
                          (Tree (<[output_folder := Dir (delete temp_name d3)]> live1) a,
                           Done chapter_files deleted_count)
                      end
                  end
              end
          end
      | _ => (Tree live0 (archive t), Raised)
      end
  end.

End splitter.

(** ** Retention (lines 239-267) *)

Definition is_dir (n : node) : bool :=
  match n with Dir _ => true | File _ => false end.

(** [os.listdir] *)
Definition listdir {A} (m : gmap string A) : list string := (map_to_list m).*1.

(** [l.sort()] on strings *)
Definition sort_asc (l : list string) : list string := merge_sort String.le l.

(** [l.sort(reverse=True)] on strings *)
Definition sort_desc (l : list string) : list string :=
  merge_sort (flip String.le) l.

(** the test of lines 299: a directory whose name starts with
    [Economist_] *)
Definition is_episode_dir (m : gmap string node) (item : string) : bool :=
  match m !! item with
  | Some n => is_dir n && PyStr.startswith "Economist_" item
  | None => false
  end.

(** lines 245-251: the dated directories of the base folder, greatest name
    first *)
Definition archive_candidates (t : tree) : list string :=
  sort_desc
    (List.filter
       (fun item => is_episode_dir (live t) item
                    && negb (String.eqb item "Archive"))
       (listdir (live t))).

(** a regular file in the archive folder carries the name of the directory:
    its relocation fails *)
Definition blocked (t : tree) (folder : string) : bool :=
  match archive t !! folder with
  | Some (File _) => true
  | _ => false
  end.

(** lines 255-264 for one folder: a regular file under the target name makes
    [shutil.rmtree] raise, which the loop catches; a directory there is
    removed before the move *)
Definition archive_one (t : tree) (folder : string) : tree :=
  match archive t !! folder with
  | Some (File _) => t
  | _ =>
      match live t !! folder with
      | Some n => Tree (delete folder (live t)) (<[folder := n]> (archive t))
      | None => t
      end
  end.

(** lines 239-267 *)
Definition archive_old_episodes (t : tree) : tree :=
  let episode_folders := archive_candidates t in
  if (1 <? length episode_folders)%nat
  then foldl archive_one t (drop 1 episode_folders)
  else t.

(** ** The feed (lines 269-356) *)

#[local] Set Warnings "-register-all".

(** an element of [xml.etree.ElementTree] *)
Inductive xml :=
  | Element (tag : string) (attrib : list (string * string))
      (text : option string) (children : list xml).

(** [ET.SubElement(parent, tag).text = text] *)
Definition text_element (tag text : string) : xml :=
  Element tag [] (Some text) [].

(** what lines 318-343 compute for one file *)
Record feed_item := FeedItem {
  item_title : string;
  item_description : string;
  item_url : string;
  item_length : string;
  item_guid : string;
  item_pubDate : string
}.

Section feed.

Variables github_username github_repo : string.

(** line 17 *)
Definition feed_url : string :=
  "https://" +:+ github_username +:+ ".github.io/" +:+ github_repo
    +:+ "/feed.xml".

(** line 318 *)
Definition date_part (folder : string) : string :=
  PyStr.replace "Economist_" "" folder.

(** line 319 *)
Definition title_part (mp3_file : string) : string :=
  PyStr.split1_last " - " (PyStr.replace ".mp3" "" mp3_file).

(** lines 325-327 *)
Definition file_url (folder mp3_file : string) : string :=
  let safe_folder := PyStr.replace " " "%20" folder in
  let safe_file := PyStr.replace " " "%20" mp3_file in
  "https://" +:+ github_username +:+ ".github.io/" +:+ github_repo
    +:+ "/" +:+ safe_folder +:+ "/" +:+ safe_file.

(** lines 337-341; [now] is the clock reading of line 341 *)
Definition pub_date (now : datetime) (folder : string) : string :=
  match PyDate.strptime_ymd (date_part folder) with
  | Some (y, m, d) => PyDate.strftime_noon y m d
  | None => PyDate.strftime_rfc now
  end.

(** lines 313-343 *)
Definition make_item (now : datetime) (folder mp3_file : string)
    (f : file) : feed_item :=
  {| item_title := date_part folder +:+ " - " +:+ title_part mp3_file;
     item_description :=
       "The Economist Weekly Edition - " +:+ title_part mp3_file;
     item_url := file_url folder mp3_file;
     item_length := PyStr.str_N (getsize f);
     item_guid := file_url folder mp3_file;
     item_pubDate := pub_date now folder |}.

(** lines 296-302 *)
Definition episode_folders (t : tree) : list string :=
  sort_desc (List.filter (is_episode_dir (live t)) (listdir (live t))).

(** lines 309-310 *)
Definition mp3_files (d : gmap string file) : list string :=
  sort_asc (List.filter (PyStr.endswith ".mp3") (listdir d)).

(** the files of one folder, each with its folder, in the order of the
    inner loop *)
Definition folder_entries (t : tree) (folder : string)
    : list (string * string * file) :=
  match live t !! folder with
  | Some (Dir d) =>
      omap (fun mp3_file => (fun f => (folder, mp3_file, f)) <$> d !! mp3_file)
        (mp3_files d)
  | _ => []
  end.

(** the files that the two loops of lines 306-346 visit, in order *)
Definition feed_entries (t : tree) : list (string * string * file) :=
  flat_map (folder_entries t) (episode_folders t).

(** the items in the order in which they are added; [now k] is the clock
    reading taken while the item numbered [k] (from 0) is built *)
Definition feed_items (now : nat -> datetime) (t : tree) : list feed_item :=
  imap (fun k '(folder, mp3_file, f) => make_item (now k) folder mp3_file f)
    (feed_entries t).

(** lines 316-343 *)
Definition item_element (i : feed_item) : xml :=
  Element "item" [] None
    [ text_element "title" (item_title i);
      text_element "description" (item_description i);
      Element "enclosure"
        [("url", item_url i); ("length", item_length i);
         ("type", "audio/mpeg")] None [];
      text_element "guid" (item_guid i);
      text_element "pubDate" (item_pubDate i) ].

(** lines 277-346: the element tree handed to the serializer. The bytes
    of [feed.xml] are a function of this tree alone. *)
Definition generate_rss_feed (now : nat -> datetime) (t : tree) : xml :=
  Element "rss"
    [("version", "2.0");
     ("xmlns:itunes", "http://www.itunes.com/dtds/podcast-1.0.dtd");
     ("xmlns:content", "http://purl.org/rss/1.0/modules/content/")] None
    [ Element "channel" [] None
        ([ text_element "title" "The Economist Weekly Edition (Chapters)";
           text_element "description"
             "The Economist Weekly Edition split into chapters for easier listening";
           text_element "language" "en-us";
           text_element "link" feed_url;
           text_element "{http://www.itunes.com/dtds/podcast-1.0.dtd}author"
             "The Economist (Processed)";
           text_element "{http://www.itunes.com/dtds/podcast-1.0.dtd}explicit"
             "no" ]
         ++ map item_element (feed_items now t)) ].

End feed.

(** the order of the two loops: a folder with a greater name comes first,
    and within a folder a file with a smaller name comes first *)
Definition entry_before (e1 e2 : string * string * file) : Prop :=
  (String.le e2.1.1 e1.1.1 /\ e2.1.1 <> e1.1.1)
  \/ (e1.1.1 = e2.1.1 /\ String.le e1.1.2 e2.1.2 /\ e1.1.2 <> e2.1.2).

(** the title as the specification words it: the date token, then the text
    after the first [" - "] of the file name with its extension stripped *)
Definition strip_extension (name : string) : string :=
  if PyStr.endswith ".mp3" name
  then PyStr.take (String.length name - 4) name
  else name.

Definition date_token (folder : string) : string :=
  PyStr.drop (String.length "Economist_") folder.

Definition spec_title (folder name : string) : string :=
  date_token folder +:+ " - "
    +:+ PyStr.split1_last " - " (strip_extension name).

(** ** The workflow (lines 36-88) *)

Definition is_file (n : node) : bool :=
  match n with File _ => true | Dir _ => false end.

(** lines 81-88 *)
Definition find_mp3_files (t : tree) : list string :=
  List.filter
    (fun file =>
       PyStr.endswith ".mp3" (PyStr.lower file)
       && match live t !! file with Some n => is_file n | None => false end)
    (listdir (live t)).

Section workflow.

Variable ffmpeg : file -> Q -> Q -> string -> option file.
Variables github_username github_repo : string.

(** lines 56-57; [clock k] gives the two clock readings of the call for
    the file numbered [k] *)
Fixpoint split_all (clock : nat -> datetime * datetime) (k : nat)
    (files : list string) (t : tree) : tree :=
  match files with
  | [] => t
  | mp3_file :: rest =>
      let '(now, now') := clock k in
      split_all clock (S k) rest
        (split_economist_file ffmpeg now now' t mp3_file).1
  end.

(** lines 52-65: the tree after the run and the feed built from it; the
    push that follows does not touch the tree *)
Definition run_complete_workflow (clock : nat -> datetime * datetime)
    (now : nat -> datetime) (t : tree) : tree * xml :=
  let mp3_files := find_mp3_files t in
  let t' :=
    match mp3_files with
    | [] => t
    | _ => archive_old_episodes (split_all clock 0 mp3_files t)
    end in
  (t', generate_rss_feed github_username github_repo now t').

End workflow.

(** ** Sample inputs *)

Module Sample.

(** a chapter frame whose second sub-frame carries the title *)
Definition chap (key : string) (start_ms end_ms : Z) (name : string)
    : string * frame :=
  (key, Chap (ChapFrame start_ms end_ms (Some [PlainFrame; TextFrame [name]]))).

(** an edition of six chapters, the last one of 50 seconds *)
Definition tags : id3_tags :=
  [ ("TIT2", OtherFrame);
    chap "CHAP:ch0" 0 500000 "The World This Week";
    chap "CHAP:ch1" 500000 620000 "Letters";
    chap "CHAP:ch2" 620000 710000 "Business: Short";
    chap "CHAP:ch3" 710000 910000 "Business: Long";
    chap "CHAP:ch4" 910000 2710000 "Briefing";
    chap "CHAP:ch5" 2710000 2760000 "Finance" ].

Definition edition : file := Audio 48000000 (Some tags).

(** the descriptors of [tags], in extraction order *)
Definition chapters : list chapter :=
  default [] (chapter_loop tags (chapter_keys tags) []).


(** an extractor that writes every file *)
Definition ffmpeg_ok : file -> Q -> Q -> string -> option file :=
  fun _ _ _ _ => Some (Audio 1000000 None).

Definition morning : datetime := DateTime 2024 3 9 9 5 7.
Definition evening : datetime := DateTime 2024 3 9 21 30 0.

(** an edition in the base folder, beside the episode of the week before *)
Definition tree1 : tree :=
  Tree {[ "edition.mp3" := File edition;
          "Economist_2024-03-02" := Dir {[ "01 - The World This Week.mp3" := Audio 900000 None ]} ]}
       ∅.

Definition split1 : tree * outcome :=
  split_economist_file ffmpeg_ok morning morning tree1 "edition.mp3".

(** a file without chapter frames *)
Definition plain : file := Audio 5000 (Some [("TIT2", OtherFrame)]).


(** two editions in the base folder *)
Definition second : file := Audio 51000000 (Some tags).

Definition tree2 : tree :=
  Tree {[ "edition.mp3" := File edition; "second.mp3" := File second ]} ∅.

Definition split2a : tree * outcome :=
  split_economist_file ffmpeg_ok morning morning tree2 "edition.mp3".

Definition split2b : tree * outcome :=
  split_economist_file ffmpeg_ok evening evening split2a.1 "second.mp3".

(** two dated directories; a regular file in the archive folder has the
    name of the older one *)
Definition tree_blocked : tree :=
  Tree {[ "Economist_2024-03-09" := Dir {[ "01 - Letters.mp3" := Audio 10 None ]};
          "Economist_2024-03-02" := Dir {[ "01 - Letters.mp3" := Audio 20 None ]} ]}
       {[ "Economist_2024-03-02" := File (Text ["note"]) ]}.

(** a directory whose name encodes no date *)
Definition tree_undated : tree :=
  Tree {[ "Economist_latest" := Dir {[ "01 - Letters.mp3" := Audio 10 None ]} ]} ∅.

(** a file name that holds [.mp3] before its extension *)
Definition tree_inner : tree :=
  Tree {[ "Economist_2024-03-09" := Dir {[ "01 - a.mp3b.mp3" := Audio 10 None ]} ]} ∅.

(** a file without tags *)
Definition tree_untagged : tree := Tree {[ "raw.mp3" := File (Audio 5000 None) ]} ∅.

(** a file without chapter frames, its extension in capitals *)
Definition tree_capitals : tree := Tree {[ "TALK.MP3" := File plain ]} ∅.

(** a chapter frame whose text sub-frame holds no string *)
Definition silent : chap_frame := ChapFrame 0 90000 (Some [TextFrame []]).

Definition tags_silent : id3_tags := [("CHAP:ch0", Chap silent)].

Definition tree_silent : tree :=
  Tree {[ "edition.mp3" := File (Audio 7000 (Some tags_silent)) ]} ∅.

(** two chapters in ascending order of their keys *)
Definition letters : chapter := Chapter 0 120 "Letters".
Definition finance : chapter := Chapter 120 300 "Finance".

End Sample.

(** * Properties *)

(** ** The order on sort keys *)

Lemma Qltb_lt (x y : Q) : Qltb x y = true <-> (x < y)%Q.
Proof.
  unfold Qltb. rewrite negb_true_iff, <- not_true_iff_false, Qle_bool_iff.
  split; [apply Qnot_le_lt | apply Qlt_not_le].
Qed.

Lemma Qltb_ge (x y : Q) : Qltb x y = false <-> (y <= x)%Q.
Proof.
  unfold Qltb. rewrite negb_false_iff. apply Qle_bool_iff.
Qed.

Lemma key_lt_spec (a b : Z * Q) :
  key_lt a b = true <-> a.1 < b.1 \/ (a.1 = b.1 /\ (a.2 < b.2)%Q).
Proof.
  unfold key_lt. destruct (Z.eqb_spec a.1 b.1) as [E|E].
  - rewrite Qltb_lt. split; [auto | intros [?|[_ ?]]; [lia | done]].
  - rewrite Z.ltb_lt. split; [auto | intros [?|[? _]]; [done | lia]].
Qed.

Lemma key_ge_spec (a b : Z * Q) :
  key_lt a b = false <-> b.1 < a.1 \/ (a.1 = b.1 /\ (b.2 <= a.2)%Q).
Proof.
  unfold key_lt. destruct (Z.eqb_spec a.1 b.1) as [E|E].
  - rewrite Qltb_ge. split; [auto | intros [?|[_ ?]]; [lia | done]].
  - rewrite Z.ltb_ge. split; [lia | intros [?|[? _]]; [lia | done]].
Qed.

Lemma key_eqb_spec (a b : Z * Q) :
  key_eqb a b = true <-> a.1 = b.1 /\ (a.2 == b.2)%Q.
Proof.
  unfold key_eqb. rewrite andb_true_iff, Z.eqb_eq, Qeq_bool_iff. done.
Qed.

Lemma key_lt_asym (a b : Z * Q) : key_lt a b = true -> key_lt b a = false.
Proof.
  rewrite key_lt_spec, key_ge_spec. intros [?|[? ?]]; [by left|right].
  split; [done | by apply Qlt_le_weak].
Qed.

Lemma key_ge_trans (a b c : Z * Q) :
  key_lt b a = false -> key_lt c b = false -> key_lt c a = false.
Proof.
  rewrite !key_ge_spec. intros [?|[? ?]] [?|[? ?]]; try (left; lia).
  right. split; [lia | by eapply Qle_trans].
Qed.

Lemma key_lt_not_eqb (a b k : Z * Q) :
  key_lt a b = true -> key_eqb b k = true -> key_eqb a k = false.
Proof.
  rewrite key_lt_spec, key_eqb_spec. intros Hlt [E1 E2].
  apply not_true_iff_false. rewrite key_eqb_spec. intros [E3 E4].
  destruct Hlt as [?|[_ Hlt]]; [lia|].
  rewrite E2, <- E4 in Hlt. by apply Qlt_irrefl in Hlt.
Qed.

(** ** The stable sort *)

Section stable_sort_facts.
Context {A : Type} (key : A -> Z * Q).




Lemma sort_insert_perm (x : A) (l : list A) : sort_insert key x l ≡ₚ x :: l.
Proof.
  induction l as [|y l IH]; simpl; [done|].
  destruct (key_lt (key y) (key x)); [|done].
  rewrite IH. apply Permutation_swap.
Qed.


Lemma sort_insert_sorted (x : A) (l : list A) :
  StronglySorted (key_ordered key) l -> StronglySorted (key_ordered key) (sort_insert key x l).
Proof.
  induction l as [|y l IH]; simpl; intros Hs.
  - repeat constructor.
  - apply StronglySorted_inv in Hs as [Hl Hy].
    destruct (key_lt (key y) (key x)) eqn:E.
    + constructor; [by apply IH|].
      rewrite sort_insert_perm. constructor; [|done].
      by apply key_lt_asym.
    + constructor; [by constructor|].
      constructor; [done|].
      eapply Forall_impl; [exact Hy|]. intros z Hz.
      unfold key_ordered in *. by eapply key_ge_trans.
Qed.

Lemma list_sort_sorted (l : list A) : StronglySorted (key_ordered key) (list_sort key l).
Proof.
  induction l as [|x l IH]; simpl; [constructor | by apply sort_insert_sorted].
Qed.

Lemma sort_insert_filter (k : Z * Q) (x : A) (l : list A) :
  List.filter (fun y => key_eqb (key y) k) (sort_insert key x l)
  = List.filter (fun y => key_eqb (key y) k) (x :: l).
Proof.
  induction l as [|y l IH]; [done|].
  simpl sort_insert. destruct (key_lt (key y) (key x)) eqn:E; [|done].
  simpl in *. rewrite IH.
  destruct (key_eqb (key x) k) eqn:Ex; [|done].
  by rewrite (key_lt_not_eqb _ _ _ E Ex).
Qed.

Lemma list_sort_filter (k : Z * Q) (l : list A) :
  List.filter (fun y => key_eqb (key y) k) (list_sort key l)
  = List.filter (fun y => key_eqb (key y) k) l.
Proof.
  induction l as [|x l IH]; [done|].
  simpl list_sort. rewrite sort_insert_filter. simpl. by rewrite IH.
Qed.
End stable_sort_facts.

Lemma StronglySorted_lookup_lt {A} (R : relation A) (l : list A) (i j : nat) (a b : A) :
  StronglySorted R l -> (i < j)%nat -> l !! i = Some a -> l !! j = Some b -> R a b.
Proof.
  intros Hs. revert i j. induction Hs as [|x l Hs IH Hx]; intros i j Hij Hi Hj.
  - done.
  - destruct j as [|j]; [lia|]. destruct i as [|i]; simpl in *.
    + injection Hi as <-. rewrite Forall_forall in Hx. apply Hx.
      by eapply list_elem_of_lookup_2.
    + eapply IH; [|done..]. lia.
Qed.

(** ** Sequencing *)


(** ** Titles *)

Section string_facts.
Variable p : ascii -> bool.





Lemma all_chars_app (s1 s2 : string) :
  PyStr.all_chars p (s1 +:+ s2)
  = PyStr.all_chars p s1 && PyStr.all_chars p s2.
Proof.
  induction s1 as [|c s1 IH]; [done|]. simpl. by rewrite IH, andb_assoc.
Qed.
End string_facts.






(** ** Decimal numerals and file names *)

Lemma pretty_N_char_digit (x : N) : PyStr.is_digit (pretty_N_char x) = true.
Proof.
  unfold pretty_N_char. by repeat case_match.
Qed.

Lemma pretty_N_go_digits (x : N) : forall s,
  PyStr.all_chars PyStr.is_digit s = true ->
  PyStr.all_chars PyStr.is_digit (pretty_N_go x s) = true.
Proof.
  induction (N.lt_wf_0 x) as [x _ IH]; intros s Hs.
  assert (x = 0 \/ 0 < x)%N as [->|Hx] by lia.
  - by rewrite pretty_N_go_0.
  - rewrite pretty_N_go_step by done. apply IH.
    + by apply N.div_lt.
    + simpl. by rewrite pretty_N_char_digit.
Qed.

(** a positive number is printed without a leading zero *)
Lemma pretty_N_go_head (x : N) : forall s,
  (0 < x)%N ->
  exists c r, pretty_N_go x s = String c r /\ c <> "0"%char.
Proof.
  induction (N.lt_wf_0 x) as [x _ IH]; intros s Hx.
  rewrite pretty_N_go_step by done.
  assert (x < 10 \/ 10 <= x)%N as [Hlt|Hge] by lia.
  - rewrite N.div_small, pretty_N_go_0 by done.
    eexists _, _. split; [done|].
    rewrite N.mod_small by done.
    assert (x = 1 \/ x = 2 \/ x = 3 \/ x = 4 \/ x = 5 \/ x = 6
            \/ x = 7 \/ x = 8 \/ x = 9)%N as Hc by lia.
    by destruct Hc as [->|[->|[->|[->|[->|[->|[->|[->| ->]]]]]]]].
  - apply IH; [by apply N.div_lt|].
    apply N.div_str_pos. lia.
Qed.

Lemma str_nat_digits (n : nat) : PyStr.all_chars PyStr.is_digit (PyStr.str_nat n) = true.
Proof.
  unfold PyStr.str_nat, pretty, pretty_nat, pretty, pretty_N.
  case_decide; [done|]. by apply pretty_N_go_digits.
Qed.

Lemma str_nat_head (n : nat) :
  (0 < n)%nat -> exists c r, PyStr.str_nat n = String c r /\ c <> "0"%char.
Proof.
  intros Hn. unfold PyStr.str_nat, pretty, pretty_nat, pretty, pretty_N.
  case_decide; [lia|]. apply pretty_N_go_head. lia.
Qed.

Lemma str_nat_inj (n m : nat) : PyStr.str_nat n = PyStr.str_nat m -> n = m.
Proof. apply pretty_nat_inj. Qed.

Lemma fmt_02d_digits (n : nat) : PyStr.all_chars PyStr.is_digit (PyStr.fmt_02d n) = true.
Proof.
  unfold PyStr.fmt_02d. destruct (n <? 10)%nat; [simpl|]; apply str_nat_digits.
Qed.

Lemma fmt_02d_inj (n m : nat) : PyStr.fmt_02d n = PyStr.fmt_02d m -> n = m.
Proof.
  unfold PyStr.fmt_02d.
  destruct (Nat.ltb_spec n 10) as [Hn|Hn], (Nat.ltb_spec m 10) as [Hm|Hm].
  - intros [= H]. by apply str_nat_inj.
  - destruct (str_nat_head m) as (c & r & -> & Hc); [lia|].
    intros [= <- _]. done.
  - destruct (str_nat_head n) as (c & r & -> & Hc); [lia|].
    intros [= -> _]. done.
  - apply str_nat_inj.
Qed.

(** two numerals followed by a space: the numerals are the same *)
Lemma digits_then_space (a b r1 r2 : string) :
  PyStr.all_chars PyStr.is_digit a = true ->
  PyStr.all_chars PyStr.is_digit b = true ->
  a +:+ String " " r1 = b +:+ String " " r2 -> a = b.
Proof.
  revert b. induction a as [|c a IH]; intros [|c' b] Ha Hb H; simpl in *.
  - done.
  - injection H as <- _. done.
  - injection H as -> _. done.
  - injection H as -> H. apply andb_true_iff in Ha as [_ Ha].
    apply andb_true_iff in Hb as [_ Hb]. f_equal. by apply IH.
Qed.

(** the output name determines the position *)
Lemma output_name_index (i j : nat) (c c' : chapter) :
  output_name i c = output_name j c' -> i = j.
Proof.
  unfold output_name. intros H. apply fmt_02d_inj.
  eapply digits_then_space; [apply fmt_02d_digits..|exact H].
Qed.

Lemma output_name_not_temp (i : nat) (c : chapter) : output_name i c <> temp_name.
Proof.
  unfold output_name, temp_name.
  pose proof (fmt_02d_digits i) as Hd.
  destruct (PyStr.fmt_02d i) as [|a r] eqn:E.
  - unfold PyStr.fmt_02d in E. destruct (i <? 10)%nat; [done|].
    destruct i as [|i]; [done|].
    destruct (str_nat_head (S i)) as (? & ? & E' & _); [lia|]. congruence.
  - simpl in *. intros [= -> _]. done.
Qed.

(** ** The splitting loop *)

Section split_loop_facts.
Variable ffmpeg : file -> Q -> Q -> string -> option file.

Lemma enumerate_ge {A} (l : list A) : forall i k x,
  In (k, x) (enumerate i l) -> (i <= k)%nat.
Proof.
  induction l as [|y l IH]; intros i k x; simpl; [done|].
  intros [[= <- _]|H]; [lia|]. apply IH in H. lia.
Qed.

Lemma enumerate_lookup {A} (l : list A) : forall i k x,
  enumerate i l !! k = Some x <-> x.1 = (i + k)%nat /\ l !! k = Some x.2.
Proof.
  induction l as [|y l IH]; intros i k [n x]; simpl.
  - rewrite !lookup_nil. split; [done | by intros [_ ?]].
  - destruct k as [|k]; simpl.
    + rewrite Nat.add_0_r. split.
      * by intros [= <- <-].
      * by intros [-> [= ->]].
    + rewrite IH. simpl. split; intros [-> ?]; (split; [lia|done]).
Qed.

Lemma enumerate_fst_sorted {A} (l : list A) : forall i,
  StronglySorted lt (enumerate i l).*1.
Proof.
  induction l as [|y l IH]; intros i; simpl; constructor; [apply IH|].
  apply Forall_forall. intros k Hk.
  apply list_elem_of_fmap in Hk as ([k' x] & -> & Hin).
  apply list_elem_of_In, enumerate_ge in Hin. simpl. lia.
Qed.

Lemma run_ffmpeg_other (src : file) (ch : chapter) (name other : string)
    (d : gmap string file) :
  other <> name -> run_ffmpeg ffmpeg src ch name d !! other = d !! other.
Proof.
  intros Hne. unfold run_ffmpeg. case_match; [|done].
  by rewrite lookup_insert_ne.
Qed.

Lemma run_ffmpeg_produced (src : file) (i : nat) (ch : chapter)
    (d : gmap string file) :
  is_Some (run_ffmpeg ffmpeg src ch (output_name i ch) d !! output_name i ch)
  <-> produced ffmpeg src d (i, ch) = true.
Proof.
  unfold run_ffmpeg, produced. simpl.
  destruct (ffmpeg _ _ _ _); [rewrite lookup_insert_eq; naive_solver|].
  destruct (d !! _); [naive_solver|]. split; [by intros [? ?]|done].
Qed.

(** the three results of the loop in closed form *)
Lemma split_loop_spec (src : file) (chs : list chapter) :
  forall i d files del,
    let r := split_loop ffmpeg src i chs d files del in
    r.1.2 = (files ++ map (fun e => output_name e.1 e.2)
                       (List.filter (fun e => kept e.2 && produced ffmpeg src d e)
                          (enumerate i chs)))%list
    /\ r.2 = (del + length (List.filter (fun c => negb (kept c)) chs))%nat
    /\ (forall other,
          (forall k c, other <> output_name k c) -> r.1.1 !! other = d !! other).
Proof.
  induction chs as [|ch chs IH]; intros i d files del; simpl.
  - rewrite app_nil_r, Nat.add_0_r. done.
  - assert (Hk : kept ch = negb (Qltb (duration ch) 60)) by done.
    rewrite Hk. destruct (Qltb (duration ch) 60) eqn:Hshort; simpl.
    + destruct (IH (S i) d files (S del)) as (H1 & H2 & H3).
      split; [done|]. split; [rewrite H2; lia | done].
    + set (name := output_name i ch).
      set (d' := run_ffmpeg ffmpeg src ch name d).
      assert (Hsame : List.filter (fun e => kept e.2 && produced ffmpeg src d' e)
                        (enumerate (S i) chs)
                      = List.filter (fun e => kept e.2 && produced ffmpeg src d e)
                          (enumerate (S i) chs)).
      { apply List.filter_ext_in. intros [k c] Hin. f_equal.
        unfold produced. simpl. unfold d'.
        rewrite run_ffmpeg_other; [done|].
        intros Heq. apply output_name_index in Heq.
        apply enumerate_ge in Hin. lia. }
      pose proof (run_ffmpeg_produced src i ch d) as Hp. fold name d' in Hp.
      destruct (d' !! name) as [f|] eqn:Hd'.
      * destruct (IH (S i) d' (files ++ [name])%list del) as (H1 & H2 & H3).
        rewrite (proj1 Hp) by eauto. simpl.
        split; [rewrite H1, Hsame, <- app_assoc; done|].
        split; [done|].
        intros other Hno. rewrite H3 by done. unfold d'.
        apply run_ffmpeg_other, Hno.
      * destruct (IH (S i) d' files del) as (H1 & H2 & H3).
        destruct (produced ffmpeg src d (i, ch)) eqn:Hpr.
        { destruct (proj2 Hp eq_refl) as [? ?]. done. }
        simpl.
        split; [by rewrite H1, Hsame|].
        split; [done|].
        intros other Hno. rewrite H3 by done. unfold d'.
        apply run_ffmpeg_other, Hno.
Qed.

End split_loop_facts.

(** ** One call of the splitter *)

Section splitter_facts.
Variable ffmpeg : file -> Q -> Q -> string -> option file.

(** what a call that ends with [Done] went through *)
Lemma split_done_inv (now now' : datetime) (t t' : tree) (input_file : string)
    (chapter_files : list string) (deleted_count : nat) :
  split_economist_file ffmpeg now now' t input_file
    = (t', Done chapter_files deleted_count) ->
  let date_str := PyDate.strftime_ymd now in
  let output_folder := folder_name date_str in
  let d0 := start_dir t output_folder in
  exists f tags chapter_info d2,
    live t !! input_file = Some (File f)
    /\ input_file <> output_folder
    /\ (forall fx, live t !! output_folder <> Some (File fx))
    /\ ID3 f = Some tags
    /\ chapter_keys tags <> []
    /\ chapter_loop tags (chapter_keys tags) [] = Some chapter_info
    /\ split_loop ffmpeg f 1 (sequence chapter_info) (<[temp_name := f]> d0) [] 0
       = (d2, chapter_files, deleted_count)
    /\ move_to_archive f (archive_original_name date_str) (archive t)
       = Some (archive t')
    /\ live t'
       = <[output_folder :=
             Dir (delete temp_name
                    (<[summary_name :=
                         Text (summary_lines (PyDate.strftime_stamp now')
                                 chapter_files)]> d2))]>
           (delete input_file (live t)).
Proof.
  intros H date_str output_folder d0. unfold split_economist_file in H.
  fold date_str output_folder in H.
  assert (Hd0 : match live t !! output_folder with
                | Some (Dir d) => d | _ => ∅ end = d0) by done.
  destruct (live t !! output_folder) as [[fx|dx]|] eqn:Hfold; [done|..];
    rewrite Hd0 in H.
  all: destruct (decide (input_file = output_folder)) as [->|Hne];
    [rewrite lookup_insert_eq in H; done|].
  all: rewrite lookup_insert_ne in H by done.
  all: destruct (live t !! input_file) as [[f|?]|] eqn:Hin; try done.
  all: destruct (ID3 f) as [tags|] eqn:Htags; [|done].
  all: destruct (chapter_keys tags) as [|k ks] eqn:Hkeys; [done|].
  all: destruct (chapter_loop tags (k :: ks) []) as [info|] eqn:Hloop; [|done].
  all: destruct (split_loop ffmpeg f 1 (sequence info) (<[temp_name:=f]> d0) [] 0)
    as [[d2 files] del] eqn:Hsplit.
  all: destruct (move_to_archive f (archive_original_name date_str) (archive t))
    as [a|] eqn:Hmove; [|done].
  all: injection H as <- <- <-.
  all: exists f, tags, info, d2; simpl.
  all: repeat split; try done.
  all: try (by rewrite Hkeys).
  all: by rewrite (delete_insert_ne _ input_file output_folder), insert_insert_eq
    by done.
Qed.




End splitter_facts.

Lemma output_name_head (i : nat) (ch : chapter) :
  exists c r, output_name i ch = String c r /\ PyStr.is_digit c = true.
Proof.
  unfold output_name. pose proof (fmt_02d_digits i) as Hd.
  destruct (PyStr.fmt_02d i) as [|c r] eqn:E.
  - unfold PyStr.fmt_02d in E. destruct (i <? 10)%nat; [done|].
    destruct i as [|i]; [done|].
    destruct (str_nat_head (S i)) as (? & ? & E' & _); [lia|]. congruence.
  - simpl in *. apply andb_true_iff in Hd as [Hc _]. by eexists _, _.
Qed.

(** among the lines of the manifest, only the listed files can be output
    names *)
Lemma summary_lines_output (stamp : string) (files : list string)
    (i : nat) (ch : chapter) :
  In (output_name i ch) (summary_lines stamp files) -> In (output_name i ch) files.
Proof.
  destruct (output_name_head i ch) as (c & r & -> & Hc).
  unfold summary_lines. simpl.
  intros [H|[H|[H|[H|H]]]]; [..|done]; try discriminate H;
    injection H as <- _; done.
Qed.

Lemma StronglySorted_map_filter {A B} (R : relation B) (g : A -> B)
    (p : A -> bool) (l : list A) :
  StronglySorted R (map g l) -> StronglySorted R (map g (List.filter p l)).
Proof.
  induction l as [|x l IH]; simpl; [done|].
  intros [Hs Hx]%StronglySorted_inv. destruct (p x); simpl; [|by apply IH].
  constructor; [by apply IH|].
  rewrite Forall_forall in Hx |- *. intros y Hy. apply Hx.
  apply list_elem_of_fmap in Hy as (z & -> & Hz).
  apply list_elem_of_fmap. exists z. split; [done|].
  apply list_elem_of_In. apply list_elem_of_In in Hz.
  apply List.filter_In in Hz as [? _]. done.
Qed.

Lemma enumerate_In {A} (l : list A) (i : nat) (e : nat * A) :
  In e (enumerate i l) -> exists k, e.1 = (i + k)%nat /\ l !! k = Some e.2.
Proof.
  intros [k Hk]%list_elem_of_In%list_elem_of_lookup.
  exists k. by apply enumerate_lookup.
Qed.

Lemma enumerate_filter_length {A} (p : A -> bool) (l : list A) : forall i,
  length (List.filter (fun e => p e.2) (enumerate i l)) = length (List.filter p l).
Proof.
  induction l as [|x l IH]; intros i; simpl; [done|].
  destruct (p x); simpl; by rewrite IH.
Qed.

Lemma kept_spec (ch : chapter) : kept ch = true <-> (60 <= duration ch)%Q.
Proof. unfold kept. rewrite negb_true_iff. apply Qltb_ge. Qed.

(** C1 (amended). A chapter shorter than 60 seconds is absent from the
    manifest. The listed files are those of kept chapters, each numbered
    with its 1-based position in the whole sequenced list, so that a skipped
    chapter uses up its position; the numbers increase strictly along the
    list. When the extractor writes every file, as many files are listed as
    chapters are kept; the chapters counted as skipped are the short ones. *)
Theorem split_loop_positions (ffmpeg : file -> Q -> Q -> string -> option file)
    (src : file) (chs : list chapter) (d : gmap string file) (stamp : string) :
  let r := split_loop ffmpeg src 1 chs d [] 0 in
  (forall (k : nat) (ch : chapter),
      chs !! k = Some ch -> (duration ch < 60)%Q ->
      ~ In (output_name (S k) ch) (summary_lines stamp r.1.2))
  /\ (exists entries : list (nat * chapter),
        r.1.2 = map (fun e => output_name e.1 e.2) entries
        /\ StronglySorted lt entries.*1
        /\ forall e, In e entries ->
             exists k, e.1 = S k /\ chs !! k = Some e.2 /\ (60 <= duration e.2)%Q)
  /\ ((forall ch name, is_Some (ffmpeg src (start_time ch) (duration ch) name)) ->
      length r.1.2 = length (List.filter kept chs))
  /\ r.2 = length (List.filter (fun ch => negb (kept ch)) chs).
Proof.
  intros r. destruct (split_loop_spec ffmpeg src chs 1 d [] 0) as (H1 & H2 & _).
  fold r in H1, H2. simpl in H1, H2.
  set (entries := List.filter (fun e => kept e.2 && produced ffmpeg src d e)
                    (enumerate 1 chs)) in *.
  assert (Hent : forall e, In e entries ->
            exists k, e.1 = S k /\ chs !! k = Some e.2 /\ kept e.2 = true).
  { intros e [Hin Hk]%List.filter_In. apply andb_true_iff in Hk as [Hk _].
    apply enumerate_In in Hin as (k & ? & ?). by exists k. }
  split.
  { intros k ch Hk Hshort Hin. apply summary_lines_output in Hin.
    rewrite H1 in Hin. apply in_map_iff in Hin as (e & Hname & He).
    apply output_name_index in Hname.
    apply Hent in He as (k' & Hk' & Hch & Hkept).
    assert (k' = k) as -> by lia. rewrite Hk in Hch. injection Hch as ->.
    apply kept_spec in Hkept. by apply Qlt_not_le in Hshort. }
  split.
  { exists entries. split; [done|]. split.
    - apply StronglySorted_map_filter, enumerate_fst_sorted.
    - intros e He. apply Hent in He as (k & ? & ? & Hkept).
      exists k. by rewrite <- kept_spec. }
  split; [|done].
  intros Hall. rewrite H1, length_map. unfold entries.
  rewrite <- (enumerate_filter_length kept chs 1). f_equal.
  apply List.filter_ext. intros e. unfold produced.
  destruct (Hall e.2 (output_name e.1 e.2)) as [f ->]. by rewrite andb_true_r.
Qed.







#[local] Set Warnings "-clear-no-such-hyp".

(** ** Listings and their sorting *)

Lemma listdir_NoDup {A} (m : gmap string A) : NoDup (listdir m).
Proof. apply NoDup_fst_map_to_list. Qed.

Lemma elem_of_listdir {A} (m : gmap string A) (k : string) :
  k ∈ listdir m <-> is_Some (m !! k).
Proof.
  unfold listdir. rewrite list_elem_of_fmap. split.
  - intros ([k' x] & -> & Hin). apply elem_of_map_to_list in Hin. by eexists.
  - intros [x Hx]. exists (k, x). split; [done|]. by apply elem_of_map_to_list.
Qed.

Lemma sort_desc_perm (l : list string) : sort_desc l ≡ₚ l.
Proof. apply merge_sort_Permutation. Qed.

Lemma sort_asc_perm (l : list string) : sort_asc l ≡ₚ l.
Proof. apply merge_sort_Permutation. Qed.

Lemma flip_le_total : Total (flip String.le).
Proof.
  intros x y. unfold flip. destruct (total String.le y x); auto.
Qed.

#[local] Existing Instance flip_le_total.

Lemma sort_desc_sorted (l : list string) :
  StronglySorted (flip String.le) (sort_desc l).
Proof. apply StronglySorted_merge_sort; apply _. Qed.

Lemma sort_asc_sorted (l : list string) : StronglySorted String.le (sort_asc l).
Proof. apply StronglySorted_merge_sort; apply _. Qed.

Lemma filter_NoDup {A} (p : A -> bool) (l : list A) : NoDup l -> NoDup (List.filter p l).
Proof.
  rewrite !NoDup_ListNoDup. apply List.NoDup_filter.
Qed.

Lemma elem_of_filter_bool {A} (p : A -> bool) (l : list A) (x : A) :
  x ∈ List.filter p l <-> x ∈ l /\ p x = true.
Proof. rewrite !list_elem_of_In. apply List.filter_In. Qed.

(** ** Retention *)

Lemma elem_of_archive_candidates (t : tree) (g : string) :
  g ∈ archive_candidates t
  <-> (exists d, live t !! g = Some (Dir d))
      /\ PyStr.startswith "Economist_" g = true.
Proof.
  unfold archive_candidates. rewrite sort_desc_perm, elem_of_filter_bool.
  rewrite elem_of_listdir. unfold is_episode_dir. split.
  - intros [_ H]. destruct (live t !! g) as [[?|d]|]; try done.
    simpl in H. apply andb_true_iff in H as [H _]. eauto.
  - intros [[d Hd] Hs]. rewrite Hd. split; [by eexists|].
    simpl. rewrite Hs. simpl. apply negb_true_iff.
    apply String.eqb_neq. intros ->. done.
Qed.

Lemma archive_candidates_NoDup (t : tree) : NoDup (archive_candidates t).
Proof.
  unfold archive_candidates. rewrite sort_desc_perm.
  apply filter_NoDup, listdir_NoDup.
Qed.

Lemma archive_one_live (t : tree) (g x : string) :
  live (archive_one t g) !! x
  = if decide (x = g)
    then (if blocked t g then live t !! g else None)
    else live t !! x.
Proof.
  unfold archive_one, blocked.
  destruct (archive t !! g) as [[?|?]|]; case_decide; subst; try done;
    destruct (live t !! g) eqn:E; simpl;
    rewrite ?lookup_delete_eq, ?lookup_delete_ne by done; done.
Qed.

Lemma archive_one_archive (t : tree) (g x : string) :
  archive (archive_one t g) !! x
  = if decide (x = g)
    then (if blocked t g then archive t !! g
          else match live t !! g with
               | Some n => Some n
               | None => archive t !! g
               end)
    else archive t !! x.
Proof.
  unfold archive_one, blocked.
  destruct (archive t !! g) as [[?|?]|] eqn:Ea; case_decide; subst; try done;
    destruct (live t !! g) eqn:E; simpl;
    rewrite ?lookup_insert_eq, ?lookup_insert_ne by done; done.
Qed.

Lemma archive_one_blocked (t : tree) (g x : string) :
  x <> g -> blocked (archive_one t g) x = blocked t x.
Proof.
  intros Hne. unfold blocked. rewrite archive_one_archive.
  by rewrite decide_False.
Qed.

(** the loop of lines 254-264 over distinct names: each name is treated
    on its own *)
Lemma archive_loop_spec (l : list string) : forall (t : tree) (x : string),
  NoDup l ->
  live (foldl archive_one t l) !! x
  = (if decide (x ∈ l)
     then (if blocked t x then live t !! x else None)
     else live t !! x)
  /\ archive (foldl archive_one t l) !! x
     = (if decide (x ∈ l)
        then (if blocked t x then archive t !! x
              else match live t !! x with
                   | Some n => Some n
                   | None => archive t !! x
                   end)
        else archive t !! x).
Proof.
  induction l as [|g l IH]; intros t x Hnd; simpl.
  - done.
  - apply NoDup_cons in Hnd as [Hg Hnd].
    destruct (IH (archive_one t g) x Hnd) as [-> ->].
    rewrite archive_one_live, archive_one_archive.
    destruct (decide (x = g)) as [->|Hne];
      [|rewrite archive_one_blocked by done];
      repeat case_decide; try done; set_solver.
Qed.

(** C4 (amended). When the archive manager runs on two or more dated
    directories, the one with the greatest name stays in the live tree. Each
    other dated directory is treated on its own: it is moved to the archive
    folder, taking the place of a directory of its name there, unless a
    regular file of its name is in the archive folder, in which case the
    relocation fails and the directory stays where it is, the archive folder
    being unchanged at that name. Nothing else changes. When no relocation
    fails, exactly one dated directory, the greatest, is left in the live
    tree. *)
Theorem archive_keeps_newest (t : tree) (newest : string) (older : list string) :
  archive_candidates t = newest :: older ->
  older <> [] ->
  let t' := archive_old_episodes t in
  live t' !! newest = live t !! newest
  /\ (forall g, g ∈ older -> String.le g newest)
  /\ (forall g, g ∈ older ->
        if blocked t g
        then live t' !! g = live t !! g /\ archive t' !! g = archive t !! g
        else live t' !! g = None /\ archive t' !! g = live t !! g)
  /\ (forall x, x ∉ older ->
        live t' !! x = live t !! x /\ archive t' !! x = archive t !! x)
  /\ ((forall g, g ∈ older -> blocked t g = false) ->
      archive_candidates t' = [newest]).
Proof.
  intros Hc Hol t'.
  pose proof (archive_candidates_NoDup t) as Hnd. rewrite Hc in Hnd.
  apply NoDup_cons in Hnd as [Hnew Hnd].
  assert (Ht' : t' = foldl archive_one t older).
  { unfold t', archive_old_episodes. rewrite Hc.
    destruct older; [done|]. done. }
  assert (Hother : forall x, x ∉ older ->
            live t' !! x = live t !! x /\ archive t' !! x = archive t !! x).
  { intros x Hx. rewrite Ht'.
    destruct (archive_loop_spec older t x Hnd) as [-> ->].
    by rewrite !decide_False by done. }
  split; [by apply Hother|].
  split.
  { intros g Hg. pose proof (sort_desc_sorted
      (List.filter (fun item => is_episode_dir (live t) item
                                && negb (String.eqb item "Archive"))
         (listdir (live t)))) as Hs.
    fold (archive_candidates t) in Hs. rewrite Hc in Hs.
    apply StronglySorted_inv in Hs as [_ Hs].
    rewrite Forall_forall in Hs. by apply Hs. }
  assert (Hold : forall g, g ∈ older ->
            if blocked t g
            then live t' !! g = live t !! g /\ archive t' !! g = archive t !! g
            else live t' !! g = None /\ archive t' !! g = live t !! g).
  { intros g Hg. rewrite Ht'.
    destruct (archive_loop_spec older t g Hnd) as [-> ->].
    rewrite !decide_True by done.
    destruct (blocked t g); [done|]. split; [done|].
    assert (g ∈ archive_candidates t) as Hin by (rewrite Hc; by right).
    apply elem_of_archive_candidates in Hin as [[d ->] _]. done. }
  split; [done|]. split; [done|].
  intros Hnb.
  apply Permutation_singleton_r, NoDup_Permutation.
  - apply archive_candidates_NoDup.
  - apply NoDup_singleton.
  - intros x. rewrite elem_of_archive_candidates, list_elem_of_singleton.
    split.
    + intros [[d Hd] Hs].
      destruct (decide (x ∈ older)) as [Hx|Hx].
      * specialize (Hold x Hx). rewrite (Hnb x Hx) in Hold.
        destruct Hold as [Hold _]. congruence.
      * destruct (Hother x Hx) as [Hl _]. rewrite Hl in Hd.
        assert (x ∈ archive_candidates t) as Hin.
        { apply elem_of_archive_candidates. eauto. }
        rewrite Hc in Hin. apply elem_of_cons in Hin as [?|?]; done.
    + intros ->. destruct (Hother newest Hnew) as [-> _].
      apply elem_of_archive_candidates. rewrite Hc. left.
Qed.

(** ** The feed *)

Lemma elem_of_episode_folders (t : tree) (g : string) :
  g ∈ episode_folders t
  <-> (exists d, live t !! g = Some (Dir d))
      /\ PyStr.startswith "Economist_" g = true.
Proof.
  unfold episode_folders. rewrite sort_desc_perm, elem_of_filter_bool.
  rewrite elem_of_listdir. unfold is_episode_dir. split.
  - intros [_ H]. destruct (live t !! g) as [[?|d]|]; try done. eauto.
  - intros [[d Hd] Hs]. rewrite Hd. split; [by eexists|done].
Qed.

Lemma episode_folders_NoDup (t : tree) : NoDup (episode_folders t).
Proof.
  unfold episode_folders. rewrite sort_desc_perm.
  apply filter_NoDup, listdir_NoDup.
Qed.

Lemma elem_of_mp3_files (d : gmap string file) (name : string) :
  name ∈ mp3_files d <-> is_Some (d !! name) /\ PyStr.endswith ".mp3" name = true.
Proof.
  unfold mp3_files. by rewrite sort_asc_perm, elem_of_filter_bool, elem_of_listdir.
Qed.

Lemma mp3_files_NoDup (d : gmap string file) : NoDup (mp3_files d).
Proof.
  unfold mp3_files. rewrite sort_asc_perm. apply filter_NoDup, listdir_NoDup.
Qed.

(** every listed name is read with success *)
Lemma omap_lookup_listed (folder : string) (d : gmap string file) (l : list string) :
  (forall name, name ∈ l -> is_Some (d !! name)) ->
  (omap (fun mp3_file => (fun f => (folder, mp3_file, f)) <$> d !! mp3_file) l).*1.*2 = l.
Proof.
  induction l as [|x l IH]; intros H; [done|]. simpl.
  destruct (H x) as [f Hf]; [left|]. rewrite Hf. simpl. f_equal.
  apply IH. intros name Hn. apply H. by right.
Qed.

Lemma folder_entries_files (t : tree) (folder : string) (d : gmap string file) :
  live t !! folder = Some (Dir d) ->
  (folder_entries t folder).*1.*2 = mp3_files d.
Proof.
  intros Hd. unfold folder_entries. rewrite Hd. apply omap_lookup_listed.
  intros name Hn. by apply elem_of_mp3_files in Hn as [? _].
Qed.

Lemma elem_of_folder_entries (t : tree) (folder : string) (e : string * string * file) :
  e ∈ folder_entries t folder
  <-> e.1.1 = folder
      /\ exists d, live t !! folder = Some (Dir d)
                   /\ d !! e.1.2 = Some e.2
                   /\ PyStr.endswith ".mp3" e.1.2 = true.
Proof.
  unfold folder_entries. destruct e as [[g name] f]. simpl.
  destruct (live t !! folder) as [[?|d]|] eqn:Hd.
  - split; [by intros ?%elem_of_nil | by intros [_ (? & [=] & _)]].
  - rewrite list_elem_of_omap. split.
    + intros (x & Hx & Hf). destruct (d !! x) as [f'|] eqn:E; [|done].
      injection Hf as <- <- <-. split; [done|]. exists d.
      apply elem_of_mp3_files in Hx as [_ ?]. done.
    + intros [-> (d' & [= <-] & Hf & Hext)]. exists name. split.
      * apply elem_of_mp3_files. split; [by eexists|done].
      * by rewrite Hf.
  - split; [by intros ?%elem_of_nil | by intros [_ (? & [=] & _)]].
Qed.

(** the files that the feed visits are the files with the extension [.mp3]
    in the dated directories *)
Lemma elem_of_feed_entries (t : tree) (folder name : string) (f : file) :
  (folder, name, f) ∈ feed_entries t
  <-> (exists d, live t !! folder = Some (Dir d) /\ d !! name = Some f)
      /\ PyStr.startswith "Economist_" folder = true
      /\ PyStr.endswith ".mp3" name = true.
Proof.
  unfold feed_entries. rewrite list_elem_of_In, in_flat_map. split.
  - intros (g & Hg & He). apply list_elem_of_In in Hg, He.
    apply elem_of_folder_entries in He as [<- (d & Hd & Hf & Hext)].
    apply elem_of_episode_folders in Hg as [_ Hs]. simpl in *. eauto.
  - intros [(d & Hd & Hf) [Hs Hext]]. exists folder. split.
    + apply list_elem_of_In, elem_of_episode_folders. eauto.
    + apply list_elem_of_In, elem_of_folder_entries. simpl. eauto.
Qed.

Lemma StronglySorted_strict {A} (R : relation A) (l : list A) :
  StronglySorted R l -> NoDup l -> StronglySorted (fun x y => R x y /\ x <> y) l.
Proof.
  induction 1 as [|x l Hs IH Hx]; intros Hnd; [constructor|].
  apply NoDup_cons in Hnd as [Hx' Hnd]. constructor; [by apply IH|].
  rewrite Forall_forall in Hx |- *. intros y Hy. split; [by apply Hx|].
  by intros ->.
Qed.

Lemma StronglySorted_of_fmap {A B} (f : A -> B) (R : relation B) (l : list A) :
  StronglySorted R (f <$> l) -> StronglySorted (fun x y => R (f x) (f y)) l.
Proof.
  induction l as [|x l IH]; [constructor|]. csimpl.
  intros [Hs Hx]%StronglySorted_inv. constructor; [by apply IH|].
  by rewrite Forall_fmap in Hx.
Qed.

Lemma StronglySorted_impl_elem {A} (R R' : relation A) (l : list A) :
  (forall x y, x ∈ l -> y ∈ l -> R x y -> R' x y) ->
  StronglySorted R l -> StronglySorted R' l.
Proof.
  intros Himp Hs. induction Hs as [|x l Hs IH Hx]; [constructor|].
  constructor.
  - apply IH. intros y z Hy Hz. apply Himp; by right.
  - rewrite Forall_forall in Hx |- *. intros y Hy.
    apply Himp; [left | by right | by apply Hx].
Qed.

Lemma folder_entries_sorted (t : tree) (folder : string) :
  StronglySorted entry_before (folder_entries t folder).
Proof.
  destruct (live t !! folder) as [[?|d]|] eqn:Hd;
    [unfold folder_entries; rewrite Hd; constructor| |
     unfold folder_entries; rewrite Hd; constructor].
  pose proof (StronglySorted_strict _ _ (sort_asc_sorted _) (mp3_files_NoDup d)) as Hs.
  fold (mp3_files d) in Hs. rewrite <- (folder_entries_files t folder d Hd) in Hs.
  rewrite <- list_fmap_compose in Hs. apply StronglySorted_of_fmap in Hs.
  eapply StronglySorted_impl_elem; [|exact Hs].
  intros x y Hx Hy [Hle Hne]. simpl in *. right.
  apply elem_of_folder_entries in Hx as [-> _].
  apply elem_of_folder_entries in Hy as [-> _]. done.
Qed.

Lemma feed_entries_sorted (t : tree) : StronglySorted entry_before (feed_entries t).
Proof.
  unfold feed_entries.
  pose proof (StronglySorted_strict _ _ (sort_desc_sorted _) (episode_folders_NoDup t))
    as Hs.
  fold (episode_folders t) in Hs.
  induction Hs as [|g gs Hs IH Hg]; simpl; [constructor|].
  apply StronglySorted_app_2; [|apply folder_entries_sorted|exact IH].
  intros x1 x2 Hx1 Hx2. left.
  apply elem_of_folder_entries in Hx1 as [Hx1 _].
  apply list_elem_of_In, in_flat_map in Hx2 as (g' & Hg' & Hx2).
  apply list_elem_of_In, elem_of_folder_entries in Hx2 as [Hx2 _].
  rewrite Forall_forall in Hg. apply list_elem_of_In in Hg'.
  destruct (Hg g' Hg') as [Hle Hne]. rewrite Hx1, Hx2. split; [exact Hle|done].
Qed.

(** ** Replacement and splitting of names *)

Lemma replace_none (old new s : string) :
  PyStr.contains old s = false -> PyStr.replace old new s = s.
Proof.
  unfold PyStr.replace. induction s as [|c s IH]; [done|].
  simpl. intros [Hp Hc]%orb_false_iff.
  change (String.prefix old (String c s)) with (String.prefix old (String c s)) in Hp.
  rewrite Hp. f_equal. by apply IH.
Qed.

Lemma replace_go_skip (old new p s : string) :
  PyStr.replace_go old new (String.length p) (p +:+ s) = PyStr.replace_go old new 0 s.
Proof. induction p as [|c p IH]; [done|]. simpl. apply IH. Qed.

Lemma prefix_app (p s : string) : String.prefix p (p +:+ s) = true.
Proof.
  induction p as [|c p IH]; simpl; [by destruct s|].
  destruct (ascii_dec c c); [apply IH|done].
Qed.

(** an occurrence at the very start is removed and the rest is treated on
    its own *)
Lemma replace_prefix (c : ascii) (old s : string) :
  PyStr.replace (String c old) "" (String c old +:+ s)
  = PyStr.replace (String c old) "" s.
Proof.
  unfold PyStr.replace. simpl PyStr.replace_go at 1.
  pose proof (prefix_app (String c old) s) as Hp. simpl in Hp. simpl.
  rewrite Hp. rewrite Nat.sub_0_r. apply replace_go_skip.
Qed.

Lemma append_cons (c : ascii) (s t : string) :
  String c s +:+ t = String c (s +:+ t).
Proof. reflexivity. Qed.

(** the extension cannot begin inside a stem that does not hold it *)
Lemma mp3_no_straddle (c : ascii) (s : string) :
  String.prefix ".mp3" (String c s) = false ->
  String.prefix ".mp3" (String c s +:+ ".mp3") = false.
Proof.
  rewrite append_cons. cbn [String.prefix].
  destruct (ascii_dec "." c) as [<-|]; [|done].
  destruct s as [|c1 s]; [done|]. rewrite append_cons. cbn [String.prefix].
  destruct (ascii_dec "m" c1) as [<-|]; [|done].
  destruct s as [|c2 s]; [done|]. rewrite append_cons. cbn [String.prefix].
  destruct (ascii_dec "p" c2) as [<-|]; [|done].
  destruct s as [|c3 s]; [done|]. rewrite append_cons. cbn [String.prefix].
  destruct (ascii_dec "3" c3) as [<-|]; [|done].
  by destruct s.
Qed.

Lemma replace_extension (stem : string) :
  PyStr.contains ".mp3" stem = false ->
  PyStr.replace ".mp3" "" (stem +:+ ".mp3") = stem.
Proof.
  unfold PyStr.replace. induction stem as [|c s IH]; [done|].
  intros H. cbn [PyStr.contains] in H. apply orb_false_iff in H as [Hp Hc].
  apply mp3_no_straddle in Hp.
  rewrite append_cons in *.
  cbn [PyStr.replace_go]. rewrite Hp. f_equal. by apply IH.
Qed.



Lemma date_part_token (token : string) :
  PyStr.contains "Economist_" token = false ->
  date_part ("Economist_" +:+ token) = token.
Proof.
  intros H. unfold date_part.
  rewrite (replace_prefix "E" "conomist_" token). by apply replace_none.
Qed.

Lemma title_part_stem (stem : string) :
  PyStr.contains ".mp3" stem = false ->
  title_part (stem +:+ ".mp3") = default stem (PyStr.after_first " - " stem).
Proof.
  intros H. unfold title_part, PyStr.split1_last. by rewrite replace_extension.
Qed.

(** C6 (amended). The feed holds one item per file with the extension
    [.mp3] in the dated directories of the live tree, the directories taken
    by descending name and the files of a directory by ascending name. The
    guid of an item is its enclosure URL, the templated address with the
    spaces of the directory and file names percent-encoded; its pubDate is
    noon on the date that the directory name encodes, or the reading of the
    clock when that text is no date. When [.mp3] occurs in the file name only
    as its extension and [Economist_] in the directory name only as its
    prefix, the title is the date token, [" - "], and the text after the
    first [" - "] of the file name without its extension (that whole name
    when it holds no [" - "]). *)
Theorem feed_items_per_file (github_username github_repo : string)
    (now : nat -> datetime) (t : tree) :
  length (feed_items github_username github_repo now t) = length (feed_entries t)
  /\ (forall folder name f,
        (folder, name, f) ∈ feed_entries t
        <-> (exists d, live t !! folder = Some (Dir d) /\ d !! name = Some f)
            /\ PyStr.startswith "Economist_" folder = true
            /\ PyStr.endswith ".mp3" name = true)
  /\ StronglySorted entry_before (feed_entries t)
  /\ (forall k folder name f,
        feed_entries t !! k = Some (folder, name, f) ->
        exists item,
          feed_items github_username github_repo now t !! k = Some item
          /\ item_guid item = item_url item
          /\ item_url item
             = "https://" +:+ github_username +:+ ".github.io/" +:+ github_repo
                 +:+ "/" +:+ PyStr.replace " " "%20" folder
                 +:+ "/" +:+ PyStr.replace " " "%20" name
          /\ item_pubDate item
             = match PyDate.strptime_ymd (date_part folder) with
               | Some (y, m, d) => PyDate.strftime_noon y m d
               | None => PyDate.strftime_rfc (now k)
               end
          /\ (forall token stem,
                folder = "Economist_" +:+ token ->
                PyStr.contains "Economist_" token = false ->
                name = stem +:+ ".mp3" ->
                PyStr.contains ".mp3" stem = false ->
                date_part folder = token
                /\ item_title item
                   = token +:+ " - "
                       +:+ default stem (PyStr.after_first " - " stem)))
  /\ (exists head,
        length head = 6%nat
        /\ generate_rss_feed github_username github_repo now t
           = Element "rss"
               [("version", "2.0");
                ("xmlns:itunes", "http://www.itunes.com/dtds/podcast-1.0.dtd");
                ("xmlns:content", "http://purl.org/rss/1.0/modules/content/")]
               None
               [Element "channel" [] None
                  (head ++ map item_element
                             (feed_items github_username github_repo now t))]).
Proof.
  split; [unfold feed_items; apply length_imap|].
  split; [apply elem_of_feed_entries|].
  split; [apply feed_entries_sorted|].
  split.
  - intros k folder name f Hk. unfold feed_items.
    rewrite list_lookup_imap, Hk. simpl. eexists. split; [done|]. simpl.
    split; [done|]. split; [done|]. split; [done|].
    intros token stem -> Htok -> Hstem.
    rewrite date_part_token, title_part_stem by done. done.
  - eexists. split; [|reflexivity]. done.
Qed.

(** C3 (amended). When the name of every dated directory that holds a file
    for the feed encodes a date, the feed document depends on the directory
    tree alone: no reading of the clock enters it. *)
Theorem feed_clock_free (github_username github_repo : string)
    (now1 now2 : nat -> datetime) (t : tree) :
  (forall folder name f,
      (folder, name, f) ∈ feed_entries t ->
      is_Some (PyDate.strptime_ymd (date_part folder))) ->
  generate_rss_feed github_username github_repo now1 t
  = generate_rss_feed github_username github_repo now2 t.
Proof.
  intros Hdate. unfold generate_rss_feed. do 5 f_equal.
  unfold feed_items. apply imap_ext. intros k [[folder name] f] Hk.
  unfold make_item, pub_date.
  destruct (Hdate folder name f) as [[[y m] d] ->]; [|done].
  by eapply list_elem_of_lookup_2.
Qed.

(** ** More on retention *)

(** X15. The test [item != 'Archive'] of line 248 excludes nothing: the archive
    manager and the feed builder see the same dated directories, in the same
    order. *)
Theorem archive_candidates_episode_folders (t : tree) :
  archive_candidates t = episode_folders t.
Proof.
  unfold archive_candidates, episode_folders. f_equal.
  apply List.filter_ext. intros item. unfold is_episode_dir.
  destruct (live t !! item) as [n|]; [|done].
  destruct (PyStr.startswith "Economist_" item) eqn:Hs.
  - rewrite andb_true_r. destruct (String.eqb_spec item "Archive") as [->|_];
      [done | by rewrite andb_true_r].
  - by rewrite andb_false_r.
Qed.

Lemma archive_old_episodes_lookup (t : tree) (x : string) :
  let t' := archive_old_episodes t in
  (live t' !! x = live t !! x /\ archive t' !! x = archive t !! x)
  \/ (x ∈ archive_candidates t /\ blocked t x = false
      /\ live t' !! x = None /\ archive t' !! x = live t !! x).
Proof.
  intros t'. unfold t', archive_old_episodes.
  pose proof (archive_candidates_NoDup t) as Hnd.
  destruct (archive_candidates t) as [|newest older] eqn:Hc; [by left|].
  destruct (1 <? length (newest :: older))%nat; [|by left].
  apply NoDup_cons in Hnd as [Hnew Hnd].
  change (drop 1 (newest :: older)) with older.
  destruct (archive_loop_spec older t x Hnd) as [Hl Ha].
  rewrite Hl, Ha. destruct (decide (x ∈ older)) as [Hx|Hx]; [|by left].
  destruct (blocked t x) eqn:Hb; [by left|]. right.
  assert (x ∈ archive_candidates t) as Hin by (rewrite Hc; by right).
  split; [by rewrite <- Hc|]. split; [done|]. split; [done|].
  apply elem_of_archive_candidates in Hin as [[d ->] _]. done.
Qed.


(** X17. The archive manager moves directories only: the regular files of the
    base folder stay, and nothing appears in the base folder. *)
Theorem archive_leaves_files (t : tree) (x : string) :
  (forall f, live t !! x = Some (File f) ->
             live (archive_old_episodes t) !! x = Some (File f))
  /\ (live t !! x = None -> live (archive_old_episodes t) !! x = None).
Proof.
  destruct (archive_old_episodes_lookup t x) as [[Hl _]|(Hin & _ & _ & _)].
  - rewrite Hl. done.
  - apply elem_of_archive_candidates in Hin as [[d Hd] _]. rewrite Hd.
    split; [by intros f [=] | by intros [=]].
Qed.

Lemma candidates_head_max (t : tree) (h : string) (rest : list string) (x : string) :
  archive_candidates t = h :: rest -> x ∈ h :: rest -> String.le x h.
Proof.
  intros Hc Hx. pose proof (sort_desc_sorted
    (List.filter (fun item => is_episode_dir (live t) item
                              && negb (String.eqb item "Archive"))
       (listdir (live t)))) as Hs.
  fold (archive_candidates t) in Hs. rewrite Hc in Hs.
  apply StronglySorted_inv in Hs as [_ Hs]. rewrite Forall_forall in Hs.
  apply elem_of_cons in Hx as [->|Hx]; [done | by apply Hs].
Qed.

Lemma archive_loop_blocked (l : list string) (t : tree) :
  (forall g, g ∈ l -> blocked t g = true) -> foldl archive_one t l = t.
Proof.
  induction l as [|g l IH]; intros Hb; [done|]. simpl.
  assert (archive_one t g = t) as ->.
  { unfold archive_one. specialize (Hb g (list_elem_of_here _ _)).
    unfold blocked in Hb. by destruct (archive t !! g) as [[?|?]|]. }
  apply IH. intros g' Hg'. apply Hb. by right.
Qed.

(** X18. Running the archive manager a second time changes nothing. *)
Theorem archive_idempotent (t : tree) :
  archive_old_episodes (archive_old_episodes t) = archive_old_episodes t.
Proof.
  set (t' := archive_old_episodes t).
  unfold archive_old_episodes at 1.
  destruct (archive_candidates t') as [|h rest] eqn:Hc'; [done|].
  destruct rest as [|r rest]; [done|].
  change (drop 1 (h :: r :: rest)) with (r :: rest).
  replace (1 <? length (h :: r :: rest))%nat with true by done.
  apply archive_loop_blocked. intros g Hg.
  pose proof (archive_candidates_NoDup t') as Hnd'. rewrite Hc' in Hnd'.
  apply NoDup_cons in Hnd' as [Hh _].
  (* a dated directory of [t'] is one of [t], left where it was *)
  assert (Hback : forall x, x ∈ archive_candidates t' ->
            x ∈ archive_candidates t
            /\ live t' !! x = live t !! x /\ archive t' !! x = archive t !! x).
  { intros x Hx. pose proof Hx as Hx'.
    apply elem_of_archive_candidates in Hx as [[d Hd] Hs].
    destruct (archive_old_episodes_lookup t x) as [[Hl Ha]|(_ & _ & Hl & _)];
      fold t' in Hl; [|congruence].
    split; [|done]. apply elem_of_archive_candidates.
    fold t' in Ha. rewrite <- Hl. eauto. }
  destruct (archive_candidates t) as [|newest older] eqn:Hc.
  { destruct (Hback g) as [Hin _]; [rewrite Hc'; by right|].
    by apply elem_of_nil in Hin. }
  (* the greatest name is the same *)
  assert (h = newest) as ->.
  { apply (anti_symm String.le).
    - destruct (Hback h) as [Hin _]; [rewrite Hc'; left|].
      eapply candidates_head_max; [exact Hc|]. exact Hin.
    - eapply (candidates_head_max t'); [exact Hc'|].
      rewrite <- Hc'. apply elem_of_archive_candidates.
      assert (newest ∈ archive_candidates t) as Hn by (rewrite Hc; left).
      apply elem_of_archive_candidates in Hn as [[d Hd] Hs].
      split; [|done]. exists d. rewrite <- Hd.
      pose proof (archive_candidates_NoDup t) as Hnd. rewrite Hc in Hnd.
      apply NoDup_cons in Hnd as [Hnew Hnd].
      unfold t', archive_old_episodes. rewrite Hc.
      destruct (1 <? length (newest :: older))%nat; [|done].
      change (drop 1 (newest :: older)) with older.
      destruct (archive_loop_spec older t newest Hnd) as [-> _].
      by rewrite decide_False. }
  destruct (Hback g) as (Hin & Hl & Ha); [rewrite Hc'; by right|].
  apply elem_of_cons in Hin as [->|Hin]; [done|].
  pose proof (archive_candidates_NoDup t) as Hnd. rewrite Hc in Hnd.
  apply NoDup_cons in Hnd as [Hnew Hnd].
  assert (Hlg : is_Some (live t' !! g)).
  { assert (g ∈ archive_candidates t') as Hg' by (rewrite Hc'; by right).
    apply elem_of_archive_candidates in Hg' as [[d ->] _]. by eexists. }
  unfold blocked. rewrite Ha. fold (blocked t g).
  destruct (blocked t g) eqn:Hb; [done|].
  destruct Hlg as [n Hn]. revert Hn. unfold t', archive_old_episodes. rewrite Hc.
  destruct older as [|o older]; [by apply elem_of_nil in Hin|].
  replace (1 <? length (newest :: o :: older))%nat with true by done.
  change (drop 1 (newest :: o :: older)) with (o :: older).
  destruct (archive_loop_spec (o :: older) t g Hnd) as [-> _].
  rewrite decide_True by done. by rewrite Hb.
Qed.

(** X19. When no relocation fails, the feed built after the archive manager ran
    lists the files of the newest dated directory and no others. *)
Theorem feed_after_archive (t : tree) (newest : string) (older : list string) :
  archive_candidates t = newest :: older ->
  (forall g, g ∈ older -> blocked t g = false) ->
  forall folder name f,
    (folder, name, f) ∈ feed_entries (archive_old_episodes t)
    <-> folder = newest
        /\ (exists d, live t !! newest = Some (Dir d) /\ d !! name = Some f)
        /\ PyStr.endswith ".mp3" name = true.
Proof.
  intros Hc Hnb folder name f.
  pose proof (archive_candidates_NoDup t) as Hnd. rewrite Hc in Hnd.
  apply NoDup_cons in Hnd as [Hnew Hnd].
  assert (Hlive : forall x,
            live (archive_old_episodes t) !! x
            = if decide (x ∈ older) then None else live t !! x).
  { intros x. unfold archive_old_episodes. rewrite Hc.
    destruct older as [|o older']; [done|].
    replace (1 <? length (newest :: o :: older'))%nat with true by done.
    change (drop 1 (newest :: o :: older')) with (o :: older').
    destruct (archive_loop_spec (o :: older') t x Hnd) as [-> _].
    case_decide; [|done]. by rewrite Hnb. }
  assert (Hn : newest ∈ archive_candidates t) by (rewrite Hc; left).
  apply elem_of_archive_candidates in Hn as [_ Hpre].
  rewrite elem_of_feed_entries, Hlive. split.
  - intros [(d & Hd & Hf) [Hs Hext]].
    case_decide as Hin; [done|].
    assert (folder ∈ archive_candidates t) as Hcand.
    { apply elem_of_archive_candidates. eauto. }
    rewrite Hc in Hcand. apply elem_of_cons in Hcand as [->|?]; [|done].
    eauto.
  - intros [-> [(d & Hd & Hf) Hext]].
    rewrite decide_False by done. eauto.
Qed.

(** ** More on sequencing *)

Lemma key_eqb_refl (a : Z * Q) : key_eqb a a = true.
Proof. apply key_eqb_spec. split; [done | apply Qeq_refl]. Qed.

Lemma key_eqb_compat (a b k : Z * Q) :
  key_eqb a b = true -> key_eqb a k = key_eqb b k.
Proof.
  intros [E1 E2]%key_eqb_spec. apply eq_true_iff_eq.
  rewrite !key_eqb_spec, E1. split; intros [? H]; (split; [done|]).
  - by rewrite <- E2.
  - by rewrite E2.
Qed.

Lemma key_between (a b : Z * Q) :
  key_lt a b = false -> key_lt b a = false -> key_eqb a b = true.
Proof.
  rewrite !key_ge_spec, key_eqb_spec.
  intros [?|[? ?]] [?|[? ?]]; try lia. split; [done|]. by apply Qle_antisym.
Qed.

Lemma key_ge_eqb (a b c : Z * Q) :
  key_lt b a = false -> key_eqb b c = true -> key_lt c a = false.
Proof.
  rewrite !key_ge_spec, key_eqb_spec. intros [?|[? ?]] [E1 E2]; [left; lia|].
  right. split; [lia|]. by rewrite <- E2.
Qed.

Section stable_sort_unique.
Context {A : Type} (key : A -> Z * Q).

Local Notation "'pick' k" := (List.filter (fun y => key_eqb (key y) k))
  (at level 10, k at level 9).

Lemma pick_head (x : A) (l : list A) : pick (key x) (x :: l) = x :: pick (key x) l.
Proof. simpl. by rewrite key_eqb_refl. Qed.

(** the first element of a sorted list is not above an element of the list *)
Lemma sorted_head_least (x z : A) (l : list A) :
  StronglySorted (key_ordered key) (x :: l) -> z ∈ x :: l ->
  key_lt (key z) (key x) = false.
Proof.
  intros [_ Hx]%StronglySorted_inv [->|Hz]%elem_of_cons.
  - destruct (key_lt (key x) (key x)) eqn:E; [|done].
    by rewrite (key_lt_asym _ _ E) in E.
  - rewrite Forall_forall in Hx. by apply Hx.
Qed.

Lemma sorted_filters_eq (l1 : list A) : forall l2,
  StronglySorted (key_ordered key) l1 ->
  StronglySorted (key_ordered key) l2 ->
  (forall k, pick k l1 = pick k l2) ->
  l1 = l2.
Proof.
  induction l1 as [|x l1 IH]; intros [|y l2] H1 H2 Hp.
  - done.
  - specialize (Hp (key y)). by rewrite pick_head in Hp.
  - specialize (Hp (key x)). by rewrite pick_head in Hp.
  - assert (Hxy : key_eqb (key x) (key y) = true).
    { apply key_between.
      - assert (x ∈ pick (key x) (y :: l2)) as Hin.
        { rewrite <- Hp, pick_head. left. }
        apply elem_of_filter_bool in Hin as [Hin _].
        by apply (sorted_head_least y x l2).
      - assert (y ∈ pick (key y) (x :: l1)) as Hin.
        { rewrite Hp, pick_head. left. }
        apply elem_of_filter_bool in Hin as [Hin _].
        by apply (sorted_head_least x y l1). }
    assert (Htail : forall k, (if key_eqb (key x) k then x :: pick k l1 else pick k l1)
                              = (if key_eqb (key x) k then y :: pick k l2 else pick k l2)).
    { intros k. specialize (Hp k). simpl in Hp.
      by rewrite <- (key_eqb_compat _ _ k Hxy) in Hp. }
    assert (x = y) as <-.
    { specialize (Htail (key x)). rewrite key_eqb_refl in Htail. congruence. }
    f_equal. apply IH.
    + by apply StronglySorted_inv in H1 as [? _].
    + by apply StronglySorted_inv in H2 as [? _].
    + intros k. specialize (Htail k). destruct (key_eqb (key x) k); congruence.
Qed.

End stable_sort_unique.

(** X1. The sort of the model is the only stable ascending sort: a list in
    ascending key order that holds, for every key, the elements of that key in
    their order of the input, is the result of [list_sort]. A sort that is
    stable and ascending, whatever its algorithm, gives this result. *)
Theorem stable_sort_unique {A : Type} (key : A -> Z * Q) (l l' : list A) :
  StronglySorted (key_ordered key) l' ->
  (forall k, List.filter (fun y => key_eqb (key y) k) l'
             = List.filter (fun y => key_eqb (key y) k) l) ->
  l' = list_sort key l.
Proof.
  intros Hs Hp. apply (sorted_filters_eq key); [done|apply list_sort_sorted|].
  intros k. by rewrite Hp, list_sort_filter.
Qed.

(** X2. The sequenced list is grouped by bucket, the buckets in increasing
    order: a chapter of a smaller bucket stands before every chapter of a
    greater one. *)
Theorem sequence_groups_buckets (chapter_info : list chapter) (i j : nat)
    (a b : chapter) :
  sequence chapter_info !! i = Some a ->
  sequence chapter_info !! j = Some b ->
  (get_sort_priority a).1 < (get_sort_priority b).1 ->
  (i < j)%nat.
Proof.
  intros Hi Hj Hlt. destruct (Nat.lt_trichotomy i j) as [?|[->|Hji]]; [done|..].
  - rewrite Hi in Hj. injection Hj as ->. lia.
  - pose proof (StronglySorted_lookup_lt _ _ j i b a
                  (list_sort_sorted get_sort_priority chapter_info) Hji Hj Hi) as H.
    unfold key_ordered in H. apply key_ge_spec in H. lia.
Qed.

(** ** Dates and names across the stages *)












Lemma endswith_app (p s : string) : PyStr.endswith p (s +:+ p) = true.
Proof.
  induction s as [|c s IH].
  - change ("" +:+ p) with p. destruct p as [|c p]; [done|].
    cbn [PyStr.endswith]. by rewrite String.eqb_refl.
  - rewrite append_cons. cbn [PyStr.endswith]. rewrite IH. apply orb_true_r.
Qed.

Lemma append_assoc (a b c : string) : (a +:+ b) +:+ c = a +:+ (b +:+ c).
Proof. induction a as [|x a IH]; [done|]. by rewrite !append_cons, IH. Qed.





(** ** More on the splitter *)

Section split_more.
Variable ffmpeg : file -> Q -> Q -> string -> option file.

Lemma run_ffmpeg_keeps (src : file) (ch : chapter) (name other : string)
    (d : gmap string file) :
  is_Some (d !! other) -> is_Some (run_ffmpeg ffmpeg src ch name d !! other).
Proof.
  intros H. unfold run_ffmpeg. case_match; [|done].
  destruct (decide (other = name)) as [->|Hne].
  - rewrite lookup_insert_eq. by eexists.
  - by rewrite lookup_insert_ne.
Qed.

Lemma split_loop_keeps (src : file) (chs : list chapter) :
  forall i d files del,
    (forall name, In name files -> is_Some (d !! name)) ->
    let r := split_loop ffmpeg src i chs d files del in
    (forall name, In name r.1.2 -> is_Some (r.1.1 !! name))
    /\ (forall name, is_Some (d !! name) -> is_Some (r.1.1 !! name)).
Proof.
  induction chs as [|ch chs IH]; intros i d files del Hfiles; simpl; [done|].
  destruct (Qltb (duration ch) 60); [by apply IH|].
  set (name := output_name i ch). set (d' := run_ffmpeg ffmpeg src ch name d).
  assert (Hkeep : forall other, is_Some (d !! other) -> is_Some (d' !! other))
    by (intros; by apply run_ffmpeg_keeps).
  destruct (d' !! name) as [f|] eqn:Hd'.
  - destruct (IH (S i) d' (files ++ [name])%list del) as [H1 H2].
    { intros x [Hx|[<-|[]]]%in_app_or; [by apply Hkeep, Hfiles | by eexists]. }
    split; [done|]. intros x Hx. by apply H2, Hkeep.
  - destruct (IH (S i) d' files del) as [H1 H2].
    { intros x Hx. by apply Hkeep, Hfiles. }
    split; [done|]. intros x Hx. by apply H2, Hkeep.
Qed.

(** X6. The loop removes no file: every file that was in the directory is still
    there, every listed file is there, and the chapters are either kept or
    counted as skipped, no more files being listed than chapters are kept. *)
Theorem listed_files_exist (src : file) (chs : list chapter) (d : gmap string file) :
  let r := split_loop ffmpeg src 1 chs d [] 0 in
  (forall name, In name r.1.2 -> is_Some (r.1.1 !! name))
  /\ (forall name, is_Some (d !! name) -> is_Some (r.1.1 !! name))
  /\ (r.2 + length (List.filter kept chs) = length chs)%nat
  /\ (length r.1.2 <= length (List.filter kept chs))%nat.
Proof.
  intros r. destruct (split_loop_keeps src chs 1 d [] 0) as [H1 H2]; [done|].
  split; [done|]. split; [done|].
  destruct (split_loop_spec ffmpeg src chs 1 d [] 0) as (Hf & Hdel & _).
  fold r in Hf, Hdel. simpl in Hf, Hdel. split.
  - rewrite Hdel. clear. induction chs as [|c chs IH]; [done|].
    simpl. destruct (kept c); simpl; lia.
  - rewrite Hf, length_map, <- (enumerate_filter_length kept chs 1).
    clear. generalize 1%nat. induction chs as [|c chs IH]; intros n; [done|].
    simpl. specialize (IH (S n)).
    destruct (kept c); simpl; [|lia].
    destruct (produced ffmpeg src d (n, c)); simpl; lia.
Qed.

End split_more.

Lemma output_name_mp3 (i : nat) (ch : chapter) :
  PyStr.endswith ".mp3" (output_name i ch) = true.
Proof.
  unfold output_name.
  replace (PyStr.fmt_02d i +:+ " - " +:+ title ch +:+ ".mp3")
    with ((PyStr.fmt_02d i +:+ " - " +:+ title ch) +:+ ".mp3")
    by (by rewrite !append_assoc).
  apply endswith_app.
Qed.

Lemma folder_name_prefix (date_str : string) :
  PyStr.startswith "Economist_" (folder_name date_str) = true.
Proof. apply prefix_app. Qed.

(** X7. Every file that a call of the splitter lists in the manifest is in the
    episode directory when the call returns, and the feed built from that
    tree holds an item for it. *)
Theorem listed_files_in_feed (ffmpeg : file -> Q -> Q -> string -> option file)
    (now now' : datetime) (t t' : tree) (input_file : string)
    (chapter_files : list string) (deleted_count : nat) :
  split_economist_file ffmpeg now now' t input_file
    = (t', Done chapter_files deleted_count) ->
  forall name, In name chapter_files ->
    exists f, (folder_name (PyDate.strftime_ymd now), name, f) ∈ feed_entries t'.
Proof.
  intros H name Hin.
  apply split_done_inv in H
    as (f & tags & info & d2 & _ & _ & _ & _ & _ & _ & Hsplit & _ & Hlive).
  set (d0 := <[temp_name:=f]> (start_dir t (folder_name (PyDate.strftime_ymd now)))) in *.
  destruct (split_loop_keeps ffmpeg f (sequence info) 1 d0 [] 0) as [H1 _]; [done|].
  destruct (split_loop_spec ffmpeg f (sequence info) 1 d0 [] 0) as (Hf & _ & _).
  rewrite Hsplit in H1, Hf. simpl in H1, Hf.
  destruct (H1 name Hin) as [fo Hfo].
  rewrite Hf in Hin. apply in_map_iff in Hin as ([k ch] & <- & _). simpl in *.
  exists fo. apply elem_of_feed_entries. split; [|split].
  - eexists. rewrite Hlive, lookup_insert_eq. split; [done|].
    rewrite lookup_delete_ne by (symmetry; apply output_name_not_temp).
    rewrite lookup_insert_ne; [done|].
    intros Heq. pose proof (output_name_mp3 k ch) as Hm. by rewrite <- Heq in Hm.
  - apply folder_name_prefix.
  - apply output_name_mp3.
Qed.

Section split_any_outcome.
Variable ffmpeg : file -> Q -> Q -> string -> option file.

(** what a call does to the base folder, however it ends: when a regular
    file has the name of the episode directory nothing changes; otherwise the
    episode directory is there afterwards and the input, when it is a regular
    file, is gone from the base folder *)
Lemma split_live (now now' : datetime) (t : tree) (input_file : string) :
  let output_folder := folder_name (PyDate.strftime_ymd now) in
  let r := split_economist_file ffmpeg now now' t input_file in
  ((exists fx, live t !! output_folder = Some (File fx)) /\ r = (t, Raised))
  \/ ((forall fx, live t !! output_folder <> Some (File fx))
      /\ exists d,
           live r.1
           = <[output_folder := Dir d]>
               (match live t !! input_file with
                | Some (File _) => delete input_file (live t)
                | _ => live t
                end)).
Proof.
  intros output_folder r. unfold r, split_economist_file.
  fold output_folder.
  destruct (live t !! output_folder) as [[fx|dx]|] eqn:Hfold;
    [left; split; [by eexists|done]|right..].
  all: split; [done|].
  all: destruct (decide (input_file = output_folder)) as [->|Hne];
    [rewrite lookup_insert_eq, ?Hfold; by eexists|].
  all: rewrite lookup_insert_ne by done.
  all: destruct (live t !! input_file) as [[f|?]|] eqn:Hin; [|by eexists..].
  all: rewrite (delete_insert_ne _ input_file output_folder) by done.
  all: destruct (ID3 f) as [tags|];
    [|eexists; simpl; by rewrite insert_insert_eq].
  all: destruct (chapter_keys tags) as [|k ks];
    [eexists; simpl; by rewrite insert_insert_eq|].
  all: destruct (chapter_loop tags (k :: ks) []) as [info|];
    [|eexists; simpl; by rewrite insert_insert_eq].
  all: destruct (split_loop ffmpeg f 1 (sequence info) _ [] 0) as [[d2 files] del].
  all: destruct (move_to_archive f _ (archive t)) as [a|];
    eexists; simpl; by rewrite insert_insert_eq.
Qed.

(** X9. The splitter makes no regular file in the base folder, and leaves the
    regular files other than its input where they are. *)
Theorem split_base_files (now now' : datetime) (t : tree) (input_file x : string) :
  let t' := (split_economist_file ffmpeg now now' t input_file).1 in
  (forall f, live t' !! x = Some (File f) -> live t !! x = Some (File f))
  /\ (forall f, x <> input_file -> live t !! x = Some (File f) ->
                live t' !! x = Some (File f)).
Proof.
  intros t'. unfold t'.
  destruct (split_live now now' t input_file) as [[_ ->]|[Hnf [d ->]]]; [done|].
  destruct (decide (x = folder_name (PyDate.strftime_ymd now))) as [->|Hx].
  { rewrite lookup_insert_eq. split; [done|]. intros f _ Hf. by destruct (Hnf f). }
  rewrite lookup_insert_ne by done. split.
  - intros f. destruct (live t !! input_file) as [[?|?]|]; [|done..].
    destruct (decide (x = input_file)) as [->|?];
      [by rewrite lookup_delete_eq | by rewrite lookup_delete_ne].
  - intros f Hne Hf. destruct (live t !! input_file) as [[?|?]|]; [|done..].
    by rewrite lookup_delete_ne.
Qed.

(** X10. Once the episode directory can be made, the input is taken out of the
    base folder, however the call ends. *)
Theorem split_consumes_input (now now' : datetime) (t : tree) (input_file : string)
    (f : file) :
  live t !! input_file = Some (File f) ->
  (forall fx, live t !! folder_name (PyDate.strftime_ymd now) <> Some (File fx)) ->
  live (split_economist_file ffmpeg now now' t input_file).1 !! input_file = None.
Proof.
  intros Hin Hnf.
  destruct (split_live now now' t input_file) as [[[fx Hfx] _]|[_ [d ->]]];
    [by destruct (Hnf fx)|].
  rewrite Hin. rewrite lookup_insert_ne.
  - apply lookup_delete_eq.
  - intros Heq. rewrite Heq in Hnf. by destruct (Hnf f).
Qed.

End split_any_outcome.

Section split_edges.
Variable ffmpeg : file -> Q -> Q -> string -> option file.

(** X13. A file whose tags cannot be read stays in the live tree: the call ends
    with an exception after the file was moved, so the file is in the episode
    directory under the name [original.mp3], the archive folder is as it
    was, and the feed carries an item for the whole unsplit file. *)
Theorem untagged_file_left (now now' : datetime) (t : tree) (input_file : string)
    (f : file) :
  let output_folder := folder_name (PyDate.strftime_ymd now) in
  live t !! input_file = Some (File f) ->
  (forall fx, live t !! output_folder <> Some (File fx)) ->
  ID3 f = None ->
  let r := split_economist_file ffmpeg now now' t input_file in
  r.2 = Raised
  /\ archive r.1 = archive t
  /\ live r.1 !! input_file = None
  /\ (output_folder, "original.mp3", f) ∈ feed_entries r.1.
Proof.
  intros output_folder Hin Hnf Htags r.
  assert (Hne : input_file <> output_folder).
  { intros ->. by destruct (Hnf f). }
  assert (Hr : r = (Tree (<[output_folder :=
                              Dir (<[temp_name := f]> (start_dir t output_folder))]>
                            (delete input_file
                               (<[output_folder := Dir (start_dir t output_folder)]>
                                  (live t))))
                         (archive t), Raised)).
  { unfold r, split_economist_file. fold output_folder. unfold start_dir.
    destruct (live t !! output_folder) as [[fx|dx]|] eqn:Hfold;
      [by destruct (Hnf fx)|..].
    all: rewrite lookup_insert_ne by done; by rewrite Hin, Htags. }
  rewrite Hr. cbn [fst snd live archive]. split; [done|]. split; [done|]. split.
  { rewrite lookup_insert_ne by done. apply lookup_delete_eq. }
  apply elem_of_feed_entries. cbn [live]. split; [|split; [apply folder_name_prefix|reflexivity]].
  eexists. rewrite lookup_insert_eq. split; [reflexivity|]. apply lookup_insert_eq.
Qed.

(** X12. A call on a name that is not in the base folder makes the episode
    directory all the same and changes nothing else; a call that cannot make
    the episode directory, a regular file having its name, changes nothing. *)
Theorem split_fails_early (now now' : datetime) (t : tree) (input_file : string) :
  let output_folder := folder_name (PyDate.strftime_ymd now) in
  let r := split_economist_file ffmpeg now now' t input_file in
  ((exists fx, live t !! output_folder = Some (File fx)) -> r = (t, Raised))
  /\ ((forall fx, live t !! output_folder <> Some (File fx)) ->
      live t !! input_file = None ->
      r = (Tree (<[output_folder := Dir (start_dir t output_folder)]> (live t))
             (archive t), Raised)).
Proof.
  intros output_folder r. unfold r, split_economist_file. fold output_folder.
  unfold start_dir. split.
  - intros [fx ->]. done.
  - intros Hnf Hin.
    destruct (decide (input_file = output_folder)) as [Heq|Hne].
    + rewrite Heq in *. rewrite Hin. by rewrite lookup_insert_eq.
    + destruct (live t !! output_folder) as [[fx|dx]|] eqn:Hfold;
        [by destruct (Hnf fx)|..].
      all: rewrite lookup_insert_ne by done; by rewrite Hin.
Qed.

(** X11. The splitter takes nothing out of the archive folder: a call changes it
    at the name [original_<date>.mp3] at most, and only a call that runs to
    its end changes it at all. *)
Theorem split_archive_grows (now now' : datetime) (t : tree) (input_file : string) :
  let r := split_economist_file ffmpeg now now' t input_file in
  (forall x, x <> archive_original_name (PyDate.strftime_ymd now) ->
             archive r.1 !! x = archive t !! x)
  /\ ((forall files del, r.2 <> Done files del) -> archive r.1 = archive t).
Proof.
  intros r. unfold r, split_economist_file.
  set (output_folder := folder_name (PyDate.strftime_ymd now)).
  destruct (live t !! output_folder) as [[fx|dx]|]; [done|..].
  all: destruct (_ !! input_file) as [[f|?]|]; [|done..].
  all: destruct (ID3 f) as [tags|]; [|done].
  all: destruct (chapter_keys tags) as [|k ks]; [done|].
  all: destruct (chapter_loop tags (k :: ks) []) as [info|]; [|done].
  all: destruct (split_loop ffmpeg f 1 (sequence info) _ [] 0) as [[d2 files] del].
  all: destruct (move_to_archive f _ (archive t)) as [a|] eqn:Hmove; [|done].
  all: simpl; split; [|intros Hnd; by destruct (Hnd files del)].
  all: intros x Hx; unfold move_to_archive in Hmove.
  all: destruct (archive t !! _) as [[?|ad]|]; simplify_eq;
    try (by rewrite lookup_insert_ne).
  all: destruct (ad !! temp_name); simplify_eq; by rewrite lookup_insert_ne.
Qed.

(** X8. A call that runs to its end removes nothing from the episode directory
    but the working copy: a file that was there is there afterwards, and it
    has the content it had unless its name is that of an output file or of
    the manifest. Chapter files of an earlier edition of the same day thus
    stay beside those of a later one. *)
Theorem split_keeps_directory (now now' : datetime) (t t' : tree)
    (input_file : string) (chapter_files : list string) (deleted_count : nat) :
  split_economist_file ffmpeg now now' t input_file
    = (t', Done chapter_files deleted_count) ->
  let output_folder := folder_name (PyDate.strftime_ymd now) in
  exists d',
    live t' !! output_folder = Some (Dir d')
    /\ (forall other, other <> "original.mp3" ->
          is_Some (start_dir t output_folder !! other) -> is_Some (d' !! other))
    /\ (forall other, other <> "original.mp3" -> other <> "00 - Chapter List.txt" ->
          (forall k c, other <> output_name k c) ->
          d' !! other = start_dir t output_folder !! other).
Proof.
  intros H output_folder.
  apply split_done_inv in H
    as (f & tags & info & d2 & _ & _ & _ & _ & _ & _ & Hsplit & _ & Hlive).
  fold output_folder in Hsplit, Hlive.
  set (d0 := <[temp_name:=f]> (start_dir t output_folder)) in *.
  destruct (split_loop_keeps ffmpeg f (sequence info) 1 d0 [] 0) as [_ H2]; [done|].
  destruct (split_loop_spec ffmpeg f (sequence info) 1 d0 [] 0) as (_ & _ & H3).
  rewrite Hsplit in H2, H3. simpl in H2, H3.
  eexists. split; [rewrite Hlive; apply lookup_insert_eq|]. split.
  - intros other Ho Hs. rewrite lookup_delete_ne by done.
    destruct (decide (other = summary_name)) as [->|Hsum].
    + rewrite lookup_insert_eq. by eexists.
    + rewrite lookup_insert_ne by done. apply H2. unfold d0.
      by rewrite lookup_insert_ne.
  - intros other Ho Hsum Hout. rewrite lookup_delete_ne by done.
    rewrite lookup_insert_ne by done. rewrite H3 by done. unfold d0.
    by rewrite lookup_insert_ne.
Qed.

End split_edges.

(** ** The workflow *)

Lemma elem_of_find_mp3_files (t : tree) (x : string) :
  x ∈ find_mp3_files t
  <-> (exists f, live t !! x = Some (File f))
      /\ PyStr.endswith ".mp3" (PyStr.lower x) = true.
Proof.
  unfold find_mp3_files. rewrite elem_of_filter_bool, elem_of_listdir. split.
  - intros [_ [He Hf]%andb_true_iff]. split; [|done].
    destruct (live t !! x) as [[f|?]|]; try done. by eexists.
  - intros [[f Hf] He]. rewrite Hf. split; [by eexists|]. by rewrite He.
Qed.

Section workflow_facts.
Variable ffmpeg : file -> Q -> Q -> string -> option file.
Variables github_username github_repo : string.

Lemma split_all_consumes (clock : nat -> datetime * datetime) (files : list string) :
  forall (k : nat) (t : tree),
    (forall j fx,
        live t !! folder_name (PyDate.strftime_ymd (clock j).1) <> Some (File fx)) ->
    forall x f,
      live (split_all ffmpeg clock k files t) !! x = Some (File f) ->
      live t !! x = Some (File f) /\ x ∉ files.
Proof.
  induction files as [|y files IH]; intros k t Hnf x f Hx; simpl in Hx.
  - split; [done|]. apply not_elem_of_nil.
  - destruct (clock k) as [now now'] eqn:Hk.
    set (t1 := (split_economist_file ffmpeg now now' t y).1) in *.
    assert (Hnf1 : forall j fx,
              live t1 !! folder_name (PyDate.strftime_ymd (clock j).1) <> Some (File fx)).
    { intros j fx Hfx.
      apply (proj1 (split_base_files ffmpeg now now' t y _)) in Hfx.
      by destruct (Hnf j fx). }
    destruct (IH (S k) t1 Hnf1 x f Hx) as [Hx1 Hnot].
    pose proof (proj1 (split_base_files ffmpeg now now' t y x) f Hx1) as Hx0.
    split; [done|]. intros [->|?]%elem_of_cons; [|done].
    pose proof (split_consumes_input ffmpeg now now' t y f Hx0) as Hgone.
    fold t1 in Hgone. rewrite Hgone in Hx1; [done|].
    specialize (Hnf k). by rewrite Hk in Hnf.
Qed.

(** X23. After a run no MP3 file is left in the base folder: each one that was
    found has been moved into an episode directory or into the archive
    folder, so that the next run finds nothing to split. (No regular file of
    the base folder has the name of an episode directory of the run.) And a
    run that finds no MP3 file leaves the tree as it is: the archive manager
    is not run. *)
Theorem workflow_consumes_inputs (clock : nat -> datetime * datetime)
    (now : nat -> datetime) (t : tree) :
  (forall j fx,
      live t !! folder_name (PyDate.strftime_ymd (clock j).1) <> Some (File fx)) ->
  find_mp3_files
    (run_complete_workflow ffmpeg github_username github_repo clock now t).1 = []
  /\ (find_mp3_files t = [] ->
      (run_complete_workflow ffmpeg github_username github_repo clock now t).1 = t).
Proof.
  intros Hnf. unfold run_complete_workflow. simpl. split.
  - destruct (find_mp3_files t) as [|y ys] eqn:Hfind; [done|].
    rewrite <- Hfind.
    set (t2 := split_all ffmpeg clock 0 (find_mp3_files t) t).
    destruct (find_mp3_files (archive_old_episodes t2)) as [|x xs] eqn:Hres; [done|].
    assert (x ∈ find_mp3_files (archive_old_episodes t2)) as Hx
      by (rewrite Hres; left).
    apply elem_of_find_mp3_files in Hx as [[f Hf] Hext].
    assert (live t2 !! x = Some (File f)) as Hf2.
    { destruct (archive_old_episodes_lookup t2 x) as [[Hl _]|(_ & _ & Hl & _)];
        congruence. }
    apply split_all_consumes in Hf2 as [Hf0 Hnot]; [|done].
    destruct Hnot. apply elem_of_find_mp3_files. eauto.
  - by intros ->.
Qed.

End workflow_facts.

(** ** More on the feed *)

Lemma replace_space (s : string) :
  PyStr.all_chars (fun c => negb (Ascii.eqb c " ")) (PyStr.replace " " "%20" s) = true.
Proof.
  unfold PyStr.replace. induction s as [|c s IH]; [done|].
  cbn [PyStr.replace_go String.prefix String.length Nat.sub].
  destruct (ascii_dec " " c) as [<-|Hc].
  - replace (String.prefix "" s) with true by (by destruct s).
    rewrite all_chars_app, IH. done.
  - cbn [PyStr.all_chars]. rewrite IH.
    destruct (Ascii.eqb_spec c " ") as [->|_]; done.
Qed.

(** X21. The enclosure URL holds no space when the account and repository names
    hold none: every space of the directory and file names is encoded. *)
Theorem file_url_no_space (github_username github_repo folder mp3_file : string) :
  PyStr.all_chars (fun c => negb (Ascii.eqb c " ")) github_username = true ->
  PyStr.all_chars (fun c => negb (Ascii.eqb c " ")) github_repo = true ->
  PyStr.all_chars (fun c => negb (Ascii.eqb c " "))
    (file_url github_username github_repo folder mp3_file) = true.
Proof.
  intros Hu Hr. unfold file_url.
  rewrite !all_chars_app, Hu, Hr, !replace_space. done.
Qed.

Lemma flat_map_ext_elem {A B} (f g : A -> list B) (l : list A) :
  (forall x, x ∈ l -> f x = g x) -> flat_map f l = flat_map g l.
Proof.
  induction l as [|x l IH]; intros H; [done|]. simpl.
  rewrite (H x) by left. f_equal. apply IH. intros y Hy. apply H. by right.
Qed.

Lemma flip_le_anti_symm : AntiSymm (=) (flip String.le).
Proof. intros x y Hxy Hyx. by apply (anti_symm String.le). Qed.

(** X22. The feed depends on the dated directories alone: two trees with the
    same directories of names starting with [Economist_] give the same
    document, whatever else the base folder and the archive folder hold. *)
Theorem feed_reads_dated_directories (github_username github_repo : string)
    (now : nat -> datetime) (t1 t2 : tree) :
  (forall g d, PyStr.startswith "Economist_" g = true ->
               (live t1 !! g = Some (Dir d) <-> live t2 !! g = Some (Dir d))) ->
  generate_rss_feed github_username github_repo now t1
  = generate_rss_feed github_username github_repo now t2.
Proof.
  intros Hsame. unfold generate_rss_feed, feed_items. do 6 f_equal.
  unfold feed_entries.
  assert (Hf : episode_folders t1 = episode_folders t2).
  { apply (@StronglySorted_unique _ (flip String.le) flip_le_anti_symm);
      [apply sort_desc_sorted..|].
    apply NoDup_Permutation; [apply episode_folders_NoDup..|].
    intros g. rewrite !elem_of_episode_folders. split.
    - intros [[d Hd] Hs]. split; [|done]. exists d. by apply Hsame.
    - intros [[d Hd] Hs]. split; [|done]. exists d. by apply Hsame. }
  rewrite <- Hf. apply flat_map_ext_elem. intros g Hg.
  apply elem_of_episode_folders in Hg as [[d Hd] Hs].
  unfold folder_entries. rewrite Hd. apply (Hsame g d Hs) in Hd. by rewrite Hd.
Qed.

(** X14. The base folder is searched for [.mp3] whatever the case of the letters,
    the episode directories for [.mp3] in small letters only: a file found
    under a name such as [TALK.MP3] and kept unsplit sits in the episode
    directory without an item in the feed. *)
Theorem uppercase_extension_unlisted
    (ffmpeg : file -> Q -> Q -> string -> option file)
    (now now' : datetime) (t : tree) (input_file : string) (f : file)
    (tags : id3_tags) :
  let output_folder := folder_name (PyDate.strftime_ymd now) in
  input_file ∈ find_mp3_files t ->
  PyStr.endswith ".mp3" input_file = false ->
  live t !! input_file = Some (File f) ->
  (forall fx, live t !! output_folder <> Some (File fx)) ->
  ID3 f = Some tags ->
  chapter_keys tags = [] ->
  let t' := (split_economist_file ffmpeg now now' t input_file).1 in
  (exists d, live t' !! output_folder = Some (Dir d) /\ d !! input_file = Some f)
  /\ forall folder f', (folder, input_file, f') ∉ feed_entries t'.
Proof.
  intros output_folder _ Hcase Hin Hnf Htags Hkeys t'.
  assert (Hne : input_file <> output_folder).
  { intros ->. by destruct (Hnf f). }
  split.
  - unfold t', split_economist_file. fold output_folder.
    destruct (live t !! output_folder) as [[fx|dx]|] eqn:Hfold;
      [by destruct (Hnf fx)|..].
    all: rewrite lookup_insert_ne by done; rewrite Hin, Htags, Hkeys.
    all: cbn [fst live]; eexists; rewrite lookup_insert_eq.
    all: split; [reflexivity|apply lookup_insert_eq].
  - intros folder f' [_ [_ He]]%elem_of_feed_entries. congruence.
Qed.

(** ** More on extraction *)



Lemma chapter_loop_empty_text (tags : id3_tags) (chapters : list string) :
  forall acc,
    (exists chap_id c,
        chap_id ∈ chapters
        /\ tags_get chap_id tags = Some (Chap c)
        /\ chap_text c = Some []) ->
    chapter_loop tags chapters acc = None.
Proof.
  induction chapters as [|k chapters IH]; intros acc (chap_id & c & Hin & Hget & Htext).
  - by apply elem_of_nil in Hin.
  - simpl. destruct (tags_get k tags) as [[ck|]|] eqn:Hk; [|done..].
    unfold chapter_of, resolve_title.
    apply elem_of_cons in Hin as [->|Hin].
    + rewrite Hget in Hk. injection Hk as <-. by rewrite Htext.
    + destruct (chap_text ck) as [[|? ?]|]; [done|..]; apply IH; eauto.
Qed.

(** X4. One chapter frame whose text sub-frame holds an empty sequence stops the
    whole file: [frame.text[0]] raises, no chapter is extracted, nothing
    is written but the working copy, which stays in the episode directory,
    and the archive folder is as it was. *)
Theorem empty_text_aborts (ffmpeg : file -> Q -> Q -> string -> option file)
    (now now' : datetime) (t : tree) (input_file : string) (f : file)
    (tags : id3_tags) (chap_id : string) (c : chap_frame) :
  let output_folder := folder_name (PyDate.strftime_ymd now) in
  live t !! input_file = Some (File f) ->
  (forall fx, live t !! output_folder <> Some (File fx)) ->
  ID3 f = Some tags ->
  chap_id ∈ chapter_keys tags ->
  tags_get chap_id tags = Some (Chap c) ->
  chap_text c = Some [] ->
  split_economist_file ffmpeg now now' t input_file
  = (Tree (<[output_folder := Dir (<["original.mp3" := f]> (start_dir t output_folder))]>
             (delete input_file (live t)))
       (archive t), Raised).
Proof.
  intros output_folder Hin Hnf Htags Hk Hget Htext.
  assert (Hne : input_file <> output_folder).
  { intros ->. by destruct (Hnf f). }
  assert (Hloop : chapter_loop tags (chapter_keys tags) [] = None).
  { apply chapter_loop_empty_text. eauto. }
  unfold split_economist_file. fold output_folder. unfold start_dir.
  destruct (live t !! output_folder) as [[fx|dx]|] eqn:Hfold;
    [by destruct (Hnf fx)|..].
  all: rewrite lookup_insert_ne by done; rewrite Hin, Htags.
  all: destruct (chapter_keys tags) as [|k ks] eqn:Hkeys;
    [by apply elem_of_nil in Hk|].
  all: rewrite Hloop.
  all: by rewrite (delete_insert_ne _ input_file output_folder), insert_insert_eq
    by done.
Qed.

(** ** The properties on the sample inputs *)

(** C1, as the specification states it, fails: on the sample edition the
    chapter after the skipped one is numbered 06, where numbering the kept
    chapters alone would give 05. *)
Lemma skipped_chapter_leaves_gap :
  (split_loop Sample.ffmpeg_ok Sample.edition 1 (sequence Sample.chapters) ∅ [] 0).1.2
  <> contiguous_names (sequence Sample.chapters).
Proof. vm_compute. discriminate. Qed.

(** C3, as the specification states it, fails: a directory whose name encodes
    no date makes the feed document follow the clock. *)
Lemma feed_reads_clock :
  generate_rss_feed "mnyamukondiwa" "economist-podcast"
    (fun _ => Sample.morning) Sample.tree_undated
  <> generate_rss_feed "mnyamukondiwa" "economist-podcast"
       (fun _ => Sample.evening) Sample.tree_undated.
Proof. vm_compute. discriminate. Qed.

(** C4, as the specification states it, fails: the relocation of the older
    directory fails on the regular file of its name in the archive folder,
    and two dated directories are left in the live tree. *)
Lemma blocked_directory_stays :
  length (archive_candidates Sample.tree_blocked) = 2%nat
  /\ length (archive_candidates (archive_old_episodes Sample.tree_blocked)) = 2%nat.
Proof. split; vm_compute; reflexivity. Qed.

(** C6, as the specification states it, fails: every occurrence of [.mp3] is
    deleted from the file name, not its extension alone. *)
Lemma inner_extension_deleted :
  map item_title
    (feed_items "mnyamukondiwa" "economist-podcast" (fun _ => Sample.morning)
       Sample.tree_inner)
  <> map (fun e => spec_title e.1.1 e.1.2) (feed_entries Sample.tree_inner).
Proof. vm_compute. discriminate. Qed.






Lemma archive_keeps_newest_witness :
  archive_candidates Sample.split1.1
  = ["Economist_2024-03-09"; "Economist_2024-03-02"]
  /\ archive_candidates (archive_old_episodes Sample.split1.1)
     = ["Economist_2024-03-09"].
Proof.
  assert (H : archive_candidates Sample.split1.1
              = ["Economist_2024-03-09"; "Economist_2024-03-02"])
    by (vm_compute; reflexivity).
  split; [exact H|].
  refine (proj2 (proj2 (proj2 (proj2
            (archive_keeps_newest Sample.split1.1 _ _ H _)))) _).
  - discriminate.
  - intros g Hg. apply list_elem_of_singleton in Hg as ->. vm_compute. reflexivity.
Defined.

Lemma feed_entries_blocked :
  feed_entries Sample.tree_blocked
  = [ ("Economist_2024-03-09", "01 - Letters.mp3", Audio 10 None);
      ("Economist_2024-03-02", "01 - Letters.mp3", Audio 20 None) ].
Proof. vm_compute. reflexivity. Qed.

Lemma feed_clock_free_witness :
  (forall folder name f,
      (folder, name, f) ∈ feed_entries Sample.tree_blocked ->
      is_Some (PyDate.strptime_ymd (date_part folder)))
  /\ generate_rss_feed "mnyamukondiwa" "economist-podcast"
       (fun _ => Sample.morning) Sample.tree_blocked
     = generate_rss_feed "mnyamukondiwa" "economist-podcast"
         (fun _ => Sample.evening) Sample.tree_blocked.
Proof.
  assert (H : forall folder name f,
             (folder, name, f) ∈ feed_entries Sample.tree_blocked ->
             is_Some (PyDate.strptime_ymd (date_part folder))).
  { intros folder name f. rewrite feed_entries_blocked.
    intros [[= -> -> ->]|[[= -> -> ->]|Hin%elem_of_nil]%elem_of_cons]%elem_of_cons;
      [by eexists..|done]. }
  split; [exact H|].
  exact (feed_clock_free _ _ _ _ Sample.tree_blocked H).
Defined.


Lemma feed_after_archive_witness :
  archive_candidates Sample.split1.1
  = ["Economist_2024-03-09"; "Economist_2024-03-02"]
  /\ (forall g, g ∈ ["Economist_2024-03-02"] -> blocked Sample.split1.1 g = false)
  /\ (("Economist_2024-03-02", "01 - The World This Week.mp3", Audio 900000 None)
        ∈ feed_entries (archive_old_episodes Sample.split1.1)
      <-> "Economist_2024-03-02" = "Economist_2024-03-09"
          /\ (exists d, live Sample.split1.1 !! "Economist_2024-03-09" = Some (Dir d)
                        /\ d !! "01 - The World This Week.mp3"
                           = Some (Audio 900000 None))
          /\ PyStr.endswith ".mp3" "01 - The World This Week.mp3" = true).
Proof.
  assert (H : archive_candidates Sample.split1.1
              = ["Economist_2024-03-09"; "Economist_2024-03-02"])
    by (vm_compute; reflexivity).
  assert (Hb : forall g, g ∈ ["Economist_2024-03-02"] ->
                         blocked Sample.split1.1 g = false).
  { intros g Hg. apply list_elem_of_singleton in Hg as ->. vm_compute. reflexivity. }
  split; [exact H|]. split; [exact Hb|].
  apply (feed_after_archive Sample.split1.1 _ _ H Hb).
Defined.

Lemma stable_sort_unique_witness :
  StronglySorted (key_ordered get_sort_priority) [Sample.letters; Sample.finance]
  /\ [Sample.letters; Sample.finance]
     = list_sort get_sort_priority [Sample.letters; Sample.finance].
Proof.
  assert (Hs : StronglySorted (key_ordered get_sort_priority)
                 [Sample.letters; Sample.finance]).
  { repeat constructor. }
  split; [exact Hs|].
  apply (stable_sort_unique get_sort_priority _ _ Hs). intros k. reflexivity.
Defined.

Lemma sequence_groups_buckets_witness :
  (get_sort_priority Sample.letters).1 < (get_sort_priority Sample.finance).1
  /\ (0 < 1)%nat.
Proof.
  split; [reflexivity|].
  apply (sequence_groups_buckets [Sample.finance; Sample.letters] 0 1
           Sample.letters Sample.finance); reflexivity.
Defined.



Lemma listed_files_in_feed_witness :
  In "06 - Briefing.mp3"
    ["01 - The World This Week.mp3"; "02 - Letters.mp3";
     "03 - Business Short.mp3"; "04 - Business Long.mp3"; "06 - Briefing.mp3"]
  /\ exists f,
       ("Economist_2024-03-09", "06 - Briefing.mp3", f) ∈ feed_entries Sample.split1.1.
Proof.
  assert (H : Sample.split1
              = (Sample.split1.1,
                 Done ["01 - The World This Week.mp3"; "02 - Letters.mp3";
                       "03 - Business Short.mp3"; "04 - Business Long.mp3";
                       "06 - Briefing.mp3"] 1)) by (vm_compute; reflexivity).
  assert (Hin : In "06 - Briefing.mp3"
                  ["01 - The World This Week.mp3"; "02 - Letters.mp3";
                   "03 - Business Short.mp3"; "04 - Business Long.mp3";
                   "06 - Briefing.mp3"]) by (simpl; tauto).
  split; [exact Hin|].
  exact (listed_files_in_feed Sample.ffmpeg_ok Sample.morning Sample.morning
           Sample.tree1 _ "edition.mp3" _ _ H _ Hin).
Defined.

Lemma split_consumes_input_witness :
  live Sample.tree1 !! "edition.mp3" = Some (File Sample.edition)
  /\ live Sample.split1.1 !! "edition.mp3" = None.
Proof.
  split; [reflexivity|].
  apply (split_consumes_input Sample.ffmpeg_ok Sample.morning Sample.morning
           Sample.tree1 "edition.mp3" Sample.edition eq_refl).
  intros fx. vm_compute. discriminate.
Defined.

Lemma workflow_consumes_inputs_witness :
  find_mp3_files Sample.tree2 = ["second.mp3"; "edition.mp3"]
  /\ find_mp3_files
       (run_complete_workflow Sample.ffmpeg_ok "mnyamukondiwa" "economist-podcast"
          (fun _ => (Sample.morning, Sample.morning)) (fun _ => Sample.evening)
          Sample.tree2).1 = [].
Proof.
  split; [vm_compute; reflexivity|].
  refine (proj1 (workflow_consumes_inputs Sample.ffmpeg_ok "mnyamukondiwa"
                   "economist-podcast" (fun _ => (Sample.morning, Sample.morning))
                   (fun _ => Sample.evening) Sample.tree2 _)).
  intros j fx. vm_compute. discriminate.
Defined.

Lemma untagged_file_left_witness :
  live Sample.tree_untagged !! "raw.mp3" = Some (File (Audio 5000 None))
  /\ (split_economist_file Sample.ffmpeg_ok Sample.morning Sample.morning
        Sample.tree_untagged "raw.mp3").2 = Raised.
Proof.
  split; [reflexivity|].
  refine (proj1 (untagged_file_left Sample.ffmpeg_ok Sample.morning Sample.morning
                   Sample.tree_untagged "raw.mp3" (Audio 5000 None) eq_refl _ eq_refl)).
  intros fx. vm_compute. discriminate.
Defined.

Lemma split_keeps_directory_witness :
  Sample.split2b.2 = Sample.split2a.2
  /\ exists d',
       live Sample.split2b.1 !! "Economist_2024-03-09" = Some (Dir d')
       /\ (forall other, other <> "original.mp3" ->
             is_Some (start_dir Sample.split2a.1 "Economist_2024-03-09" !! other) ->
             is_Some (d' !! other))
       /\ (forall other, other <> "original.mp3" -> other <> "00 - Chapter List.txt" ->
             (forall k c, other <> output_name k c) ->
             d' !! other = start_dir Sample.split2a.1 "Economist_2024-03-09" !! other).
Proof.
  assert (Hb : Sample.split2b
               = (Sample.split2b.1,
                  Done ["01 - The World This Week.mp3"; "02 - Letters.mp3";
                        "03 - Business Short.mp3"; "04 - Business Long.mp3";
                        "06 - Briefing.mp3"] 1)) by (vm_compute; reflexivity).
  split; [vm_compute; reflexivity|].
  exact (split_keeps_directory Sample.ffmpeg_ok Sample.evening Sample.evening
           Sample.split2a.1 _ "second.mp3" _ _ Hb).
Defined.

Lemma file_url_no_space_witness :
  file_url "mnyamukondiwa" "economist-podcast" "Economist_2024-03-09" "02 - Letters.mp3"
  = "https://mnyamukondiwa.github.io/economist-podcast/Economist_2024-03-09/02%20-%20Letters.mp3"
  /\ PyStr.all_chars (fun c => negb (Ascii.eqb c " "))
       (file_url "mnyamukondiwa" "economist-podcast" "Economist_2024-03-09"
          "02 - Letters.mp3") = true.
Proof.
  split; [reflexivity|].
  apply (file_url_no_space "mnyamukondiwa" "economist-podcast"); reflexivity.
Defined.

Lemma feed_reads_dated_directories_witness :
  generate_rss_feed "mnyamukondiwa" "economist-podcast" (fun _ => Sample.morning)
    Sample.tree_blocked
  = generate_rss_feed "mnyamukondiwa" "economist-podcast" (fun _ => Sample.morning)
      (Tree (live Sample.tree_blocked) ∅).
Proof.
  apply (feed_reads_dated_directories "mnyamukondiwa" "economist-podcast"
           (fun _ => Sample.morning) Sample.tree_blocked
           (Tree (live Sample.tree_blocked) ∅)).
  intros g d _. reflexivity.
Defined.

Lemma uppercase_extension_unlisted_witness :
  "TALK.MP3" ∈ find_mp3_files Sample.tree_capitals
  /\ feed_entries
       (split_economist_file Sample.ffmpeg_ok Sample.morning Sample.morning
          Sample.tree_capitals "TALK.MP3").1 = [].
Proof.
  assert (Hin : "TALK.MP3" ∈ find_mp3_files Sample.tree_capitals).
  { apply list_elem_of_lookup. exists 0%nat. vm_compute. reflexivity. }
  split; [exact Hin|].
  assert (Hno : forall fx,
            live Sample.tree_capitals !! folder_name (PyDate.strftime_ymd Sample.morning)
            <> Some (File fx)) by (intros fx; vm_compute; discriminate).
  pose proof (proj2 (uppercase_extension_unlisted Sample.ffmpeg_ok Sample.morning
                       Sample.morning Sample.tree_capitals "TALK.MP3" Sample.plain
                       [("TIT2", OtherFrame)] Hin eq_refl eq_refl Hno eq_refl eq_refl))
    as H.
  vm_compute. reflexivity.
Defined.


Lemma empty_text_aborts_witness :
  chap_text Sample.silent = Some []
  /\ (split_economist_file Sample.ffmpeg_ok Sample.morning Sample.morning
        Sample.tree_silent "edition.mp3").2 = Raised.
Proof.
  split; [reflexivity|].
  rewrite (empty_text_aborts Sample.ffmpeg_ok Sample.morning Sample.morning
             Sample.tree_silent "edition.mp3" (Audio 7000 (Some Sample.tags_silent))
             Sample.tags_silent "CHAP:ch0" Sample.silent).
  - reflexivity.
  - reflexivity.
  - intros fx. vm_compute. discriminate.
  - reflexivity.
  - apply list_elem_of_singleton. reflexivity.
  - reflexivity.
  - reflexivity.
Defined.
